(** * Bubbler: scoring, normalisation and bubble state

    A shallow embedding of the TypeScript sources of the Bubble Advisor
    front end (utils/dataMapper.ts, pages/MarketConsensus.tsx,
    pages/UserAnalysis.tsx, hooks/useBubbleState.ts, hooks/useVoiceAgent.ts,
    api/client.ts, types/bubble.ts) and of the bubble state store and
    conversation orchestrator that the specification describes.

    Numbers.  A JavaScript [number] is an IEEE double.  Finite doubles are
    rationals, and comparisons between them are exact, so record fields hold
    a [Q] and the results of arithmetic are a [number]: a rational, one of
    the two infinities or NaN.  Arithmetic on rationals is exact here:
    rounding of [+], [*] and [/] and the sign of zero are not modelled. *)

From Stdlib Require Import QArith Qminmax Lqa Lia String List Bool.
From stdpp Require Import gmap strings.
From Stdlib Require Import Ascii NArith Qround.
Import ListNotations.

(** ** JavaScript numbers *)

Module JS.
Local Open Scope Q_scope.

Inductive number : Type :=
| Num (q : Q)
| PosInf
| NegInf
| NaN.

(** [a + b] *)
Definition add (a b : number) : number :=
  match a, b with
  | NaN, _ | _, NaN => NaN
  | Num x, Num y => Num (x + y)
  | PosInf, NegInf | NegInf, PosInf => NaN
  | PosInf, _ | _, PosInf => PosInf
  | NegInf, _ | _, NegInf => NegInf
  end.

(** The product of an infinity [inf] (with opposite [ninf]) and the finite [x]. *)
Definition scale_inf (inf ninf : number) (x : Q) : number :=
  match x ?= 0 with
  | Eq => NaN
  | Gt => inf
  | Lt => ninf
  end.

(** [a * b] *)
Definition mul (a b : number) : number :=
  match a, b with
  | NaN, _ | _, NaN => NaN
  | Num x, Num y => Num (x * y)
  | Num x, PosInf | PosInf, Num x => scale_inf PosInf NegInf x
  | Num x, NegInf | NegInf, Num x => scale_inf NegInf PosInf x
  | PosInf, PosInf | NegInf, NegInf => PosInf
  | PosInf, NegInf | NegInf, PosInf => NegInf
  end.

(** [a / b]: a zero divisor gives NaN for [0 / 0] and an infinity otherwise. *)
Definition div (a b : number) : number :=
  match a, b with
  | NaN, _ | _, NaN => NaN
  | Num x, Num y =>
      if Qeq_bool y 0 then
        match x ?= 0 with
        | Eq => NaN
        | Gt => PosInf
        | Lt => NegInf
        end
      else Num (x / y)
  | Num _, PosInf | Num _, NegInf => Num 0
  | PosInf, Num y => if Qle_bool 0 y then PosInf else NegInf
  | NegInf, Num y => if Qle_bool 0 y then NegInf else PosInf
  | _, _ => NaN
  end.

(** [a < b]; every comparison with NaN is false. *)
Definition lt (a b : number) : bool :=
  match a, b with
  | NaN, _ | _, NaN => false
  | Num x, Num y => if Qlt_le_dec x y then true else false
  | NegInf, NegInf | PosInf, _ => false
  | NegInf, _ => true
  | Num _, PosInf => true
  | Num _, NegInf => false
  end.

(** [a > b] *)
Definition gt (a b : number) : bool := lt b a.

(** [Math.min(a, b)] *)
Definition min (a b : number) : number :=
  match a, b with
  | NaN, _ | _, NaN => NaN
  | Num x, Num y => Num (Qmin x y)
  | NegInf, _ | _, NegInf => NegInf
  | PosInf, n | n, PosInf => n
  end.

(** [array.length] as a number *)
Definition length {A : Type} (l : list A) : number :=
  Num (inject_Z (Z.of_nat (List.length l))).

(** [w || 1] on a finite number: zero is falsy. *)
Definition or_one (w : Q) : Q := if Qeq_bool w 0 then 1 else w.

(** Equality of numbers up to the representation of the rational. *)
Definition eqv (a b : number) : Prop :=
  match a, b with
  | Num x, Num y => x == y
  | PosInf, PosInf | NegInf, NegInf | NaN, NaN => True
  | _, _ => False
  end.

Definition is_finite (a : number) : bool :=
  match a with Num _ => true | _ => false end.

End JS.

(** ** types/bubble.ts

    [name], [description] and [explanation] are display texts that none of
    the functions below reads; the records keep the fields that are read. *)

Module Index.
Record t : Type := mk {
  id : string;
  value : Q;                (* 0-100 *)
  marketWeight : Q;         (* 0-100 *)
  userValue : option Q      (* userValue?: number *)
}.
End Index.

Module Category.
Record t : Type := mk {
  id : string;
  indexes : list Index.t;
  userWeight : Q;           (* 0-100 *)
  marketWeight : Q          (* 0-100 *)
}.
End Category.

Definition market_index (i : string) (v w : Q) : Index.t :=
  Index.mk i v w None.

(** The [CATEGORIES] constant. *)
Definition CATEGORIES : list Category.t :=
  [ Category.mk "valuation"
      [ market_index "pe-ratio" 85 12.5;
        market_index "revenue-multiple" 78 12.5;
        market_index "market-cap" 68 12.5;
        market_index "growth-premium" 82 12.5 ] 50 50;
    Category.mk "sentiment"
      [ market_index "media-mentions" 92 10;
        market_index "social-sentiment" 88 10;
        market_index "search-trends" 75 10;
        market_index "analyst-ratings" 80 10;
        market_index "ipo-activity" 70 10 ] 50 50;
    Category.mk "positioning"
      [ market_index "fund-flows" 72 10;
        market_index "institutional" 68 10;
        market_index "retail-interest" 85 10;
        market_index "options-volume" 76 10 ] 50 50;
    Category.mk "macro"
      [ market_index "interest-rates" 55 10;
        market_index "liquidity" 65 10;
        market_index "vix" 68 12.5;
        market_index "put-call" 72 12.5 ] 50 50;
    Category.mk "fundamentals"
      [ market_index "revenue-growth" 88 10;
        market_index "profit-margins" 62 10;
        market_index "capex-cycle" 78 10;
        market_index "adoption-rate" 70 10;
        market_index "competition" 75 5 ] 50 50 ].

(** ** Results of code that may throw *)

Inductive result (A : Type) : Type :=
| Ok (a : A)
| Throw (message : string).
Arguments Ok {A} a.
Arguments Throw {A} message.

Definition bind {A B : Type} (r : result A) (k : A -> result B) : result B :=
  match r with
  | Ok a => k a
  | Throw m => Throw m
  end.

Notation "'let*' x ':=' r 'in' k" := (bind r (fun x => k))
  (at level 10, x name, r at level 100, k at level 200).

Definition is_ok {A : Type} (r : result A) : bool :=
  match r with Ok _ => true | Throw _ => false end.

(** ** types/api.ts: the metrics sent to the back end, as the object literal
    of [categoriesToMetrics] builds them *)

Record MetricsCategory1 : Type := {
  pe_ratio : Q; revenue_multiple : Q; market_cap_gdp : Q; growth_premium : Q }.
Record MetricsCategory2 : Type := {
  media_mentions : Q; social_sentiment : Q; search_trends : Q;
  analyst_ratings : Q; ipo_activity : Q }.
Record MetricsCategory3 : Type := {
  fund_flows : Q; institutional_holdings : Q; retail_interest : Q;
  options_volume : Q }.
Record MetricsCategory4 : Type := {
  interest_rates : Q; liquidity : Q; vix : Q; put_call_ratio : Q }.
Record MetricsCategory5 : Type := {
  revenue_growth : Q; profit_margins : Q; capex_cycle : Q; adoption_rate : Q;
  competition : Q }.
Record MetricsData : Type := {
  category_1_valuation : MetricsCategory1;
  category_2_sentiment : MetricsCategory2;
  category_3_positioning : MetricsCategory3;
  category_4_macro : MetricsCategory4;
  category_5_fundamentals : MetricsCategory5 }.

Inductive RiskLevel : Type := LOW | MEDIUM | HIGH.

(** ** utils/dataMapper.ts *)

Module DataMapper.

(** [categories.find((c) => c.id === id)] *)
Definition findCategory (categories : list Category.t) (i : string)
  : option Category.t :=
  List.find (fun c => String.eqb (Category.id c) i) categories.

(** The helper [getValue] of [categoriesToMetrics]: the user value if
    available and requested, otherwise the market value. *)
Definition getValue (useUserValues : bool) (index : Index.t) : Q :=
  match useUserValues, Index.userValue index with
  | true, Some v => v
  | _, _ => Index.value index
  end.

(** [category.indexes.find((i) => i.id === id)] *)
Definition lookupIndex (category : Category.t) (i : string) : option Index.t :=
  List.find (fun x => String.eqb (Index.id x) i) (Category.indexes category).

(** The helper [findIndex] of [categoriesToMetrics]. *)
Definition findIndex (category : Category.t) (i : string) : result Index.t :=
  match lookupIndex category i with
  | Some index => Ok index
  | None =>
      Throw ("Index " ++ i ++ " not found in category " ++ Category.id category)
  end.

(** The expression [getValue(findIndex(category, id))]. *)
Definition valueOf (useUserValues : bool) (category : Category.t) (i : string)
  : result Q :=
  let* index := findIndex category i in
  Ok (getValue useUserValues index).

Definition categoriesToMetrics (categories : list Category.t)
  (useUserValues : bool) : result MetricsData :=
  match findCategory categories "valuation",
        findCategory categories "sentiment",
        findCategory categories "positioning",
        findCategory categories "macro",
        findCategory categories "fundamentals" with
  | Some valuation, Some sentiment, Some positioning, Some macro,
    Some fundamentals =>
      let get := valueOf useUserValues in
      let* v1 := get valuation "pe-ratio" in
      let* v2 := get valuation "revenue-multiple" in
      let* v3 := get valuation "market-cap" in
      let* v4 := get valuation "growth-premium" in
      let* s1 := get sentiment "media-mentions" in
      let* s2 := get sentiment "social-sentiment" in
      let* s3 := get sentiment "search-trends" in
      let* s4 := get sentiment "analyst-ratings" in
      let* s5 := get sentiment "ipo-activity" in
      let* p1 := get positioning "fund-flows" in
      let* p2 := get positioning "institutional" in
      let* p3 := get positioning "retail-interest" in
      let* p4 := get positioning "options-volume" in
      let* m1 := get macro "interest-rates" in
      let* m2 := get macro "liquidity" in
      let* m3 := get macro "vix" in
      let* m4 := get macro "put-call" in
      let* f1 := get fundamentals "revenue-growth" in
      let* f2 := get fundamentals "profit-margins" in
      let* f3 := get fundamentals "capex-cycle" in
      let* f4 := get fundamentals "adoption-rate" in
      let* f5 := get fundamentals "competition" in
      Ok {| category_1_valuation :=
              {| pe_ratio := v1; revenue_multiple := v2;
                 market_cap_gdp := v3; growth_premium := v4 |};
            category_2_sentiment :=
              {| media_mentions := s1; social_sentiment := s2;
                 search_trends := s3; analyst_ratings := s4;
                 ipo_activity := s5 |};
            category_3_positioning :=
              {| fund_flows := p1; institutional_holdings := p2;
                 retail_interest := p3; options_volume := p4 |};
            category_4_macro :=
              {| interest_rates := m1; liquidity := m2; vix := m3;
                 put_call_ratio := m4 |};
            category_5_fundamentals :=
              {| revenue_growth := f1; profit_margins := f2;
                 capex_cycle := f3; adoption_rate := f4;
                 competition := f5 |} |}
  | _, _, _, _, _ => Throw "Missing required categories"
  end.

(** The callback of [category.indexes.forEach] in
    [calculateClientRiskScore], on the pair
    [(categoryScore, categoryIndexWeight)]. *)
Definition indexStep (useUserValues : bool) (acc : JS.number * JS.number)
  (index : Index.t) : JS.number * JS.number :=
  let '(categoryScore, categoryIndexWeight) := acc in
  let value :=
    match useUserValues, Index.userValue index with
    | true, Some v => v
    | _, _ => Index.value index
    end in
  let indexWeight :=
    if useUserValues then 1%Q else JS.or_one (Index.marketWeight index) in
  (JS.add categoryScore (JS.mul (JS.Num value) (JS.Num indexWeight)),
   JS.add categoryIndexWeight (JS.Num indexWeight)).

(** [(categoryScore, categoryIndexWeight)] after the inner loop. *)
Definition categoryTotals (useUserValues : bool) (category : Category.t)
  : JS.number * JS.number :=
  fold_left (indexStep useUserValues) (Category.indexes category)
    (JS.Num 0, JS.Num 0).

(** The value of [categoryScore] after the inner loop and the guarded
    division. *)
Definition categoryScoreOf (useUserValues : bool) (category : Category.t)
  : JS.number :=
  let '(categoryScore, categoryIndexWeight) :=
    categoryTotals useUserValues category in
  if JS.gt categoryIndexWeight (JS.Num 0)
  then JS.div categoryScore categoryIndexWeight
  else categoryScore.

(** The callback of [categories.forEach], on the pair
    [(totalScore, totalWeight)]. *)
Definition categoryStep (useUserValues : bool) (acc : JS.number * JS.number)
  (category : Category.t) : JS.number * JS.number :=
  let '(totalScore, totalWeight) := acc in
  let weight :=
    JS.Num (if useUserValues then Category.userWeight category
            else Category.marketWeight category) in
  let categoryScore := categoryScoreOf useUserValues category in
  (JS.add totalScore (JS.mul categoryScore weight), JS.add totalWeight weight).

Definition calculateClientRiskScore (categories : list Category.t)
  (useUserValues : bool) : JS.number :=
  let '(totalScore, totalWeight) :=
    fold_left (categoryStep useUserValues) categories (JS.Num 0, JS.Num 0) in
  if JS.gt totalWeight (JS.Num 0) then JS.div totalScore totalWeight
  else JS.Num 0.

Definition getRiskLevel (score : JS.number) : RiskLevel :=
  if JS.lt score (JS.Num 33) then LOW
  else if JS.lt score (JS.Num 67) then MEDIUM
  else HIGH.

End DataMapper.

(** ** pages/MarketConsensus.tsx *)

Module MarketConsensus.

(** [category.indexes.reduce((sum, index) => sum + index.value, 0)
     / category.indexes.length] *)
Definition categoryScore (category : Category.t) : JS.number :=
  JS.div
    (fold_left (fun sum index => JS.add sum (JS.Num (Index.value index)))
       (Category.indexes category) (JS.Num 0))
    (JS.length (Category.indexes category)).

Definition step (acc : JS.number * JS.number) (category : Category.t)
  : JS.number * JS.number :=
  let '(totalScore, totalWeight) := acc in
  (JS.add totalScore
     (JS.mul (categoryScore category) (JS.Num (Category.marketWeight category))),
   JS.add totalWeight (JS.Num (Category.marketWeight category))).

Definition calculateScore (cats : list Category.t) : JS.number :=
  let '(totalScore, totalWeight) :=
    fold_left step cats (JS.Num 0, JS.Num 0) in
  if JS.gt totalWeight (JS.Num 0)
  then JS.min (JS.Num 100) (JS.div totalScore totalWeight)
  else JS.Num 0.

End MarketConsensus.

(** ** pages/UserAnalysis.tsx *)

Module UserAnalysis.

Definition indexValue (index : Index.t) : Q :=
  match Index.userValue index with
  | Some v => v
  | None => Index.value index
  end.

Definition categoryScore (category : Category.t) : JS.number :=
  JS.div
    (fold_left (fun sum index => JS.add sum (JS.Num (indexValue index)))
       (Category.indexes category) (JS.Num 0))
    (JS.length (Category.indexes category)).

Definition step (totalScore : JS.number) (category : Category.t) : JS.number :=
  JS.add totalScore
    (JS.mul (categoryScore category)
       (JS.div (JS.Num (Category.userWeight category)) (JS.Num 100))).

Definition calculateScore (cats : list Category.t) : JS.number :=
  JS.min (JS.Num 100)
    (JS.div (fold_left step cats (JS.Num 0)) (JS.length cats)).

End UserAnalysis.


(** ** The scoring algorithm in the words of the specification

    An indicator set is a list of categories, each a category weight and a
    list of sub-indicators (value, weight). *)

Module Spec.
Local Open Scope Q_scope.

Definition sub_indicators : Type := list (Q * Q).
Definition indicator_set : Type := list (Q * sub_indicators).

Fixpoint sum_weighted (subs : list (Q * Q)) : Q :=
  match subs with
  | [] => 0
  | (v, w) :: rest => v * w + sum_weighted rest
  end.

Fixpoint sum_weights (subs : list (Q * Q)) : Q :=
  match subs with
  | [] => 0
  | (_, w) :: rest => w + sum_weights rest
  end.

(** category_score = sum (value x weight) / sum weight, and 0 when the
    total sub-indicator weight is zero. *)
Definition category_score (subs : sub_indicators) : Q :=
  if Qeq_bool (sum_weights subs) 0 then 0
  else sum_weighted subs / sum_weights subs.

(** The pairs (category_score, category_weight). *)
Definition scored (cats : indicator_set) : list (Q * Q) :=
  map (fun c => (category_score (snd c), fst c)) cats.

(** risk_score = min(100, sum (category_score x category_weight)
    / sum category_weight). *)
Definition risk_score (cats : indicator_set) : Q :=
  Qmin 100 (sum_weighted (scored cats) / sum_weights (scored cats)).

(** < 33.34 LOW, 33.34 <= score < 66.67 MEDIUM, >= 66.67 HIGH. *)
Definition risk_level (score : Q) : RiskLevel :=
  if Qlt_le_dec score 33.34 then LOW
  else if Qlt_le_dec score 66.67 then MEDIUM
  else HIGH.

End Spec.

(** ** Readings of a [Category] list as an indicator set *)

Module View.
Local Open Scope Q_scope.

Definition categoryWeight (useUserValues : bool) (c : Category.t) : Q :=
  if useUserValues then Category.userWeight c else Category.marketWeight c.

(** The weight [calculateClientRiskScore] gives a sub-indicator. *)
Definition indexWeight (useUserValues : bool) (i : Index.t) : Q :=
  if useUserValues then 1 else JS.or_one (Index.marketWeight i).

(** The pairs (value, weight) [calculateClientRiskScore] reads off the
    sub-indicators of a category. *)
Definition pairs_of (u : bool) (l : list Index.t) : list (Q * Q) :=
  map (fun i => (DataMapper.getValue u i, indexWeight u i)) l.

(** The indicator set as the source declares it: market values with the
    market weights. *)
Definition declared_pairs (c : Category.t) : Spec.sub_indicators :=
  map (fun i => (Index.value i, Index.marketWeight i)) (Category.indexes c).

Definition declared (cats : list Category.t) : Spec.indicator_set :=
  map (fun c => (Category.marketWeight c, declared_pairs c)) cats.

(** The indicator set as [calculateClientRiskScore] reads it. *)
Definition effective (useUserValues : bool) (cats : list Category.t)
  : Spec.indicator_set :=
  map (fun c =>
         (categoryWeight useUserValues c,
          View.pairs_of useUserValues (Category.indexes c))) cats.

(** The sum of the category weights. *)
Fixpoint totalWeight (useUserValues : bool) (cats : list Category.t) : Q :=
  match cats with
  | [] => 0
  | c :: rest => categoryWeight useUserValues c + totalWeight useUserValues rest
  end.

(** Give the sub-indicator [i] of the category [c] the market weight [w]. *)
Definition set_index_weight (c i : string) (w : Q) (cats : list Category.t)
  : list Category.t :=
  map (fun cat =>
         if String.eqb (Category.id cat) c
         then Category.mk (Category.id cat)
                (map (fun x =>
                        if String.eqb (Index.id x) i
                        then Index.mk (Index.id x) (Index.value x) w
                               (Index.userValue x)
                        else x) (Category.indexes cat))
                (Category.userWeight cat) (Category.marketWeight cat)
         else cat) cats.

(** Give every sub-indicator the market weight [w] and every category the
    market and user weight [c]. *)
Definition set_weights (w c : Q) (cats : list Category.t) : list Category.t :=
  map (fun cat =>
         Category.mk (Category.id cat)
           (map (fun x => Index.mk (Index.id x) (Index.value x) w
                            (Index.userValue x)) (Category.indexes cat))
           c c) cats.

Definition in_range (q : Q) : bool := Qle_bool 0 q && Qle_bool q 100.

Definition valid_index (i : Index.t) : bool :=
  in_range (Index.value i) && in_range (Index.marketWeight i)
  && match Index.userValue i with
     | Some v => in_range v
     | None => true
     end.

Definition valid_category (c : Category.t) : bool :=
  in_range (Category.userWeight c) && in_range (Category.marketWeight c)
  && forallb valid_index (Category.indexes c).

(** Every value and weight lies in [0,100]. *)
Definition valid (cats : list Category.t) : bool :=
  forallb valid_category cats.

(** All sub-indicators have the market value [v]. *)
Definition all_values (v : Q) (cats : list Category.t) : Prop :=
  Forall (fun c => Forall (fun i => Index.value i == v) (Category.indexes c)) cats.

(** Within each category all sub-indicators have the same market weight. *)
Definition uniform_weights (cats : list Category.t) : Prop :=
  Forall (fun c => exists w, Forall (fun i => Index.marketWeight i == w)
                               (Category.indexes c)) cats.

(** Five categories, each with at least one sub-indicator. *)
Definition five_categories (cats : list Category.t) : Prop :=
  List.length cats = 5%nat /\ Forall (fun c => Category.indexes c <> []) cats.

(** Replace the market value of every sub-indicator. *)
Definition set_values (v : Q) (cats : list Category.t) : list Category.t :=
  map (fun c =>
         Category.mk (Category.id c)
           (map (fun i => Index.mk (Index.id i) v (Index.marketWeight i)
                            (Index.userValue i)) (Category.indexes c))
           (Category.userWeight c) (Category.marketWeight c)) cats.

(** Apply [h] to every sub-indicator. *)
Definition map_indexes (h : Index.t -> Index.t) (cats : list Category.t)
  : list Category.t :=
  map (fun c => Category.mk (Category.id c) (map h (Category.indexes c))
                  (Category.userWeight c) (Category.marketWeight c)) cats.

(** Apply [g] to every value of a sub-indicator, market or user, and [h]
    to its weight. *)
Definition retouch (g h : Q -> Q) (i : Index.t) : Index.t :=
  Index.mk (Index.id i) (g (Index.value i)) (h (Index.marketWeight i))
    (option_map g (Index.userValue i)).

(** Apply [g] to every value and [h] to every weight of a payload. *)
Definition retouch_payload (g h : Q -> Q) (cats : list Category.t)
  : list Category.t :=
  map (fun c => Category.mk (Category.id c)
                  (map (retouch g h) (Category.indexes c))
                  (h (Category.userWeight c)) (h (Category.marketWeight c)))
    cats.

Definition map_category1 (g : Q -> Q) (m : MetricsCategory1) :=
  {| pe_ratio := g (pe_ratio m); revenue_multiple := g (revenue_multiple m);
     market_cap_gdp := g (market_cap_gdp m);
     growth_premium := g (growth_premium m) |}.
Definition map_category2 (g : Q -> Q) (m : MetricsCategory2) :=
  {| media_mentions := g (media_mentions m);
     social_sentiment := g (social_sentiment m);
     search_trends := g (search_trends m);
     analyst_ratings := g (analyst_ratings m);
     ipo_activity := g (ipo_activity m) |}.
Definition map_category3 (g : Q -> Q) (m : MetricsCategory3) :=
  {| fund_flows := g (fund_flows m);
     institutional_holdings := g (institutional_holdings m);
     retail_interest := g (retail_interest m);
     options_volume := g (options_volume m) |}.
Definition map_category4 (g : Q -> Q) (m : MetricsCategory4) :=
  {| interest_rates := g (interest_rates m); liquidity := g (liquidity m);
     vix := g (vix m); put_call_ratio := g (put_call_ratio m) |}.
Definition map_category5 (g : Q -> Q) (m : MetricsCategory5) :=
  {| revenue_growth := g (revenue_growth m);
     profit_margins := g (profit_margins m);
     capex_cycle := g (capex_cycle m); adoption_rate := g (adoption_rate m);
     competition := g (competition m) |}.

(** Apply [g] to every number of the metrics. *)
Definition map_metrics (g : Q -> Q) (m : MetricsData) : MetricsData :=
  {| category_1_valuation := map_category1 g (category_1_valuation m);
     category_2_sentiment := map_category2 g (category_2_sentiment m);
     category_3_positioning := map_category3 g (category_3_positioning m);
     category_4_macro := map_category4 g (category_4_macro m);
     category_5_fundamentals := map_category5 g (category_5_fundamentals m) |}.

Definition map_result {A B : Type} (f : A -> B) (r : result A) : result B :=
  match r with
  | Ok a => Ok (f a)
  | Throw m => Throw m
  end.

(** The categories and sub-indicators [categoriesToMetrics] looks up, in
    the order in which it looks them up. *)
Definition SCHEMA : list (string * list string) :=
  [ ("valuation", ["pe-ratio"; "revenue-multiple"; "market-cap"; "growth-premium"]);
    ("sentiment", ["media-mentions"; "social-sentiment"; "search-trends";
                   "analyst-ratings"; "ipo-activity"]);
    ("positioning", ["fund-flows"; "institutional"; "retail-interest";
                     "options-volume"]);
    ("macro", ["interest-rates"; "liquidity"; "vix"; "put-call"]);
    ("fundamentals", ["revenue-growth"; "profit-margins"; "capex-cycle";
                      "adoption-rate"; "competition"]) ]%string.

Definition has_category (cats : list Category.t) (c : string) : bool :=
  match DataMapper.findCategory cats c with
  | Some _ => true
  | None => false
  end.

Definition has_index (c : Category.t) (i : string) : bool :=
  match DataMapper.lookupIndex c i with
  | Some _ => true
  | None => false
  end.

(** The payload without the categories named [c]. *)
Definition without (c : string) (cats : list Category.t) : list Category.t :=
  List.filter (fun x => negb (String.eqb (Category.id x) c)) cats.

(** The payload without the sub-indicators named [i]. *)
Definition without_index (i : string) (cats : list Category.t)
  : list Category.t :=
  map (fun c =>
         Category.mk (Category.id c)
           (List.filter (fun x => negb (String.eqb (Index.id x) i))
              (Category.indexes c))
           (Category.userWeight c) (Category.marketWeight c)) cats.

(** The identifiers and the market values of a payload. *)
Definition market_values (cats : list Category.t)
  : list (string * list (string * Q)) :=
  map (fun c =>
         (Category.id c,
          map (fun i => (Index.id i, Index.value i)) (Category.indexes c)))
    cats.

(** The categories of the schema that the payload lacks. *)
Definition missing_categories (cats : list Category.t) : list string :=
  List.filter (fun c => negb (has_category cats c)) (map fst SCHEMA).

(** The sub-indicators (category, id) of the schema that the first
    category of that name lacks, in schema order. *)
Definition missing_indexes (cats : list Category.t) : list (string * string) :=
  flat_map (fun '(c, ids) =>
              match DataMapper.findCategory cats c with
              | Some cat =>
                  map (fun i => (c, i)) (List.filter (fun i => negb (has_index cat i)) ids)
              | None => []
              end) SCHEMA.

(** Two sub-indicators of the same name whose values, as [getValue] reads
    them under [u] and [u'], are related by [g]. *)
Definition index_rel (g : Q -> Q) (u u' : bool) (i i' : Index.t) : Prop :=
  Index.id i = Index.id i'
  /\ DataMapper.getValue u' i' = g (DataMapper.getValue u i).

Definition category_rel (g : Q -> Q) (u u' : bool) (c c' : Category.t) : Prop :=
  Category.id c = Category.id c'
  /\ Forall2 (index_rel g u u') (Category.indexes c) (Category.indexes c').

Definition option_rel {A : Type} (R : A -> A -> Prop) (x y : option A) : Prop :=
  match x, y with
  | Some a, Some b => R a b
  | None, None => True
  | _, _ => False
  end.

(** Give the sub-indicator the user value [v]. *)
Definition set_user (v : Q) (i : Index.t) : Index.t :=
  Index.mk (Index.id i) (Index.value i) (Index.marketWeight i) (Some v).

(** Does [hay] contain [needle]? *)
Fixpoint contains (needle hay : string) : bool :=
  String.prefix needle hay
  || match hay with
     | EmptyString => false
     | String _ rest => contains needle rest
     end.

End View.

(** ** [calculateClientRiskScore] in exact rational arithmetic *)

Module Exact.
Local Open Scope Q_scope.

Definition indexStep (useUserValues : bool) (acc : Q * Q) (index : Index.t)
  : Q * Q :=
  (fst acc + DataMapper.getValue useUserValues index
             * View.indexWeight useUserValues index,
   snd acc + View.indexWeight useUserValues index).

Definition categoryAccum (useUserValues : bool) (category : Category.t) : Q * Q :=
  fold_left (indexStep useUserValues) (Category.indexes category) (0, 0).

Definition categoryScoreOf (useUserValues : bool) (category : Category.t) : Q :=
  let acc := categoryAccum useUserValues category in
  if Qlt_le_dec 0 (snd acc) then fst acc / snd acc else fst acc.

Definition categoryStep (useUserValues : bool) (acc : Q * Q)
  (category : Category.t) : Q * Q :=
  (fst acc + categoryScoreOf useUserValues category
             * View.categoryWeight useUserValues category,
   snd acc + View.categoryWeight useUserValues category).

(** The pairs (category score, category weight) of the outer loop. *)
Definition scored_of (u : bool) (l : list Category.t) : list (Q * Q) :=
  map (fun c => (categoryScoreOf u c, View.categoryWeight u c)) l.

Definition totals (useUserValues : bool) (categories : list Category.t) : Q * Q :=
  fold_left (categoryStep useUserValues) categories (0, 0).

Definition riskScore (categories : list Category.t) (useUserValues : bool) : Q :=
  let acc := totals useUserValues categories in
  if Qlt_le_dec 0 (snd acc) then fst acc / snd acc else 0.

End Exact.

(** ** types/api.ts: bubble state and the voice conversation response *)

Record BubbleState : Type := {
  risk_score : Q;
  risk_level : RiskLevel;
  personality : string;
  summary : string }.

Record ConversationResponse : Type := {
  conversation_id : string;
  user_transcript : string;
  bubble_response : string;
  audio_base64 : string;
  bubble_state : BubbleState }.

(** ** The bubble state store and the conversation orchestrator *)

Module Backend.

Inductive error : Type :=
| ValidationError (field : string)
| NotFoundError (bubbleId : string)
| TranscriptionError
| GenerationError
| SynthesisError.

Inductive outcome (A : Type) : Type :=
| Done (a : A)
| Failed (e : error).
Arguments Done {A} a.
Arguments Failed {A} e.

(** One conversation turn: the user utterance and the agent reply.  The
    timestamp of a turn is wall-clock time and is left out; the order of
    the log is the order of appending. *)
Record Turn : Type := { user_text : string; agent_text : string }.

Record Prompt : Type := {
  persona : string;
  indicator_summary : string;
  prior_turns : list Turn;
  utterance : string }.

(** The collaborators of the store and the orchestrator: [assess] is the
    pipeline normalise, score, resolve persona; the other three are the
    speech-to-text, reply-generation and text-to-speech providers. *)
Class Collaborators : Type := {
  assess : MetricsData -> outcome BubbleState;
  transcribe : string -> option string;
  generate : Prompt -> option string;
  synthesize : string -> option string }.

Record Bubble : Type := {
  indicators : MetricsData;
  snapshot : BubbleState;
  conversations : gmap string (list Turn) }.

Abbreviation store := (gmap string Bubble).

(** Modelled from the spec: the back end is not among the sources.
    [upsert] of the Bubble State Store: runs the assessment, replaces the
    indicators and the snapshot of the bubble, and leaves its conversation
    log untouched. *)
Definition upsert `{Collaborators} (s : store) (bubbleId : string)
  (metrics : MetricsData) : store * outcome BubbleState :=
  match assess metrics with
  | Failed e => (s, Failed e)
  | Done snap =>
      let log :=
        match s !! bubbleId with
        | Some b => conversations b
        | None => ∅
        end in
      (<[bubbleId := {| indicators := metrics; snapshot := snap;
                        conversations := log |}]> s,
       Done snap)
  end.

(** Modelled from the spec: [get] of the Bubble State Store, which fails
    with NotFoundError if the identifier was never initialized. *)
Definition get (s : store) (bubbleId : string) : outcome BubbleState :=
  match s !! bubbleId with
  | Some b => Done (snapshot b)
  | None => Failed (NotFoundError bubbleId)
  end.

(** Modelled from the spec: [history] of the Bubble State Store, the empty
    sequence if the conversation identifier is unseen. *)
Definition history (s : store) (bubbleId conversationId : string) : list Turn :=
  match s !! bubbleId with
  | Some b => default [] (conversations b !! conversationId)
  | None => []
  end.

(** Modelled from the spec: [appendTurn] of the Bubble State Store, which
    fails with NotFoundError if the bubble does not exist and creates the
    log of the conversation identifier on its first turn. *)
Definition appendTurn (s : store) (bubbleId conversationId : string)
  (userText agentText : string) : outcome store :=
  match s !! bubbleId with
  | None => Failed (NotFoundError bubbleId)
  | Some b =>
      let turn := {| user_text := userText; agent_text := agentText |} in
      let log := default [] (conversations b !! conversationId) ++ [turn] in
      Done (<[bubbleId := {| indicators := indicators b;
                             snapshot := snapshot b;
                             conversations :=
                               <[conversationId := log]> (conversations b) |}]> s)
  end.

(** Modelled from the spec: the minting of a conversation identifier, not
    among the sources.  The specification asks for an identifier distinct
    from all prior identifiers of the bubble; the model takes the first
    string that names no conversation of the bubble. *)
Definition mint (b : Bubble) : string := fresh (dom (conversations b)).

(** Modelled from the spec: the Conversation Orchestrator, not among the
    sources.  Transcribe, load the state, build the prompt, obtain the
    reply, synthesize, append the turn, return; the first failure ends the
    call and leaves the store as it was. *)
Definition voiceConversation `{Collaborators} (s : store) (bubbleId : string)
  (audio : string) (conversationId : option string)
  : outcome (store * ConversationResponse) :=
  match transcribe audio with
  | None => Failed TranscriptionError
  | Some text =>
      match s !! bubbleId with
      | None => Failed (NotFoundError bubbleId)
      | Some b =>
          let conv :=
            match conversationId with
            | Some c => c
            | None => mint b
            end in
          let prompt :=
            {| persona := personality (snapshot b);
               indicator_summary := summary (snapshot b);
               prior_turns := history s bubbleId conv;
               utterance := text |} in
          match generate prompt with
          | None => Failed GenerationError
          | Some reply =>
              match synthesize reply with
              | None => Failed SynthesisError
              | Some speech =>
                  match appendTurn s bubbleId conv text reply with
                  | Failed e => Failed e
                  | Done s' =>
                      Done (s', {| conversation_id := conv;
                                   user_transcript := text;
                                   bubble_response := reply;
                                   audio_base64 := speech;
                                   bubble_state := snapshot b |})
                  end
              end
          end
      end
  end.

(** The turn that a response reports. *)
Definition turn_of (r : ConversationResponse) : Turn :=
  {| user_text := user_transcript r; agent_text := bubble_response r |}.

(** The calls a server receives, and the server with the record of the
    conversation identifiers it has returned, per bubble. *)
Inductive request : Type :=
| Initialize (bubbleId : string) (metrics : MetricsData)
| Voice (bubbleId : string) (audio : string) (conversationId : option string).

Record server : Type := {
  bubbles : store;
  issued : list (string * string) }.

Definition boot : server := {| bubbles := ∅; issued := [] |}.

Definition handle `{Collaborators} (sv : server) (r : request) : server :=
  match r with
  | Initialize bubbleId metrics =>
      {| bubbles := fst (upsert (bubbles sv) bubbleId metrics);
         issued := issued sv |}
  | Voice bubbleId audio conversationId =>
      match voiceConversation (bubbles sv) bubbleId audio conversationId with
      | Done (s', response) =>
          {| bubbles := s';
             issued := (bubbleId, conversation_id response) :: issued sv |}
      | Failed _ => sv
      end
  end.

Definition serve `{Collaborators} (requests : list request) : server :=
  fold_left handle requests boot.

(** Every identifier the server has returned names a conversation of its
    bubble. *)
Definition logged (sv : server) : Prop :=
  forall b c : string,
    In (b, c) (issued sv) ->
    exists bub : Bubble,
      bubbles sv !! b = Some bub /\ c ∈ dom (conversations bub).

End Backend.

(** ** api/client.ts, hooks/useBubbleState.ts and hooks/useVoiceAgent.ts

    The HTTP routes are wired to the store and the orchestrator by code
    that is not among the sources; [apiClient.initializeBubble] and
    [apiClient.sendVoiceMessage] are taken to reach [upsert] and
    [voiceConversation], and a response that is not ok makes
    [handleResponse] throw. *)

Module Client.
Import Backend.

(** The server and the query cache of the page: the entry of the query
    key [["bubbleState", bubbleId]] is stored under [bubbleId]. *)
Record world : Type := {
  backend : store;
  queryCache : gmap string BubbleState }.

(** [useInitializeBubble().mutate({ bubbleId, metrics })]: the mutation
    calls [apiClient.initializeBubble], and [onSuccess] stores the response
    with [queryClient.setQueryData(["bubbleState", variables.bubbleId], data)]. *)
Definition initializeBubble `{Collaborators} (w : world) (bubbleId : string)
  (metrics : MetricsData) : world :=
  match upsert (backend w) bubbleId metrics with
  | (s', Done data) =>
      {| backend := s'; queryCache := <[bubbleId := data]> (queryCache w) |}
  | (s', Failed _) =>
      {| backend := s'; queryCache := queryCache w |}
  end.

(** [useInitializeBubbleFromCategories().initializeFromCategories]: when
    [categoriesToMetrics] throws, nothing is sent. *)
Definition initializeFromCategories `{Collaborators} (w : world)
  (bubbleId : string) (categories : list Category.t) (useUserValues : bool)
  : result world :=
  let* metrics := DataMapper.categoriesToMetrics categories useUserValues in
  Ok (initializeBubble w bubbleId metrics).

(** The state of [useVoiceAgent] that [processAudio] reads and writes. *)
Record voiceAgent : Type := {
  conversationId : option string;
  lastTranscript : string;
  lastResponse : string;
  isProcessing : bool }.

Definition useVoiceAgent : voiceAgent :=
  {| conversationId := None; lastTranscript := EmptyString;
     lastResponse := EmptyString;
     isProcessing := false |}.

(** [processAudio]: sends the audio with the [conversationId] of the hook
    state it was created in, [agent], and stores the identifier, the
    transcript and the reply of the response.  Recording, playback and the
    toasts are left out. *)
Definition processAudio `{Collaborators} (bubbleId : string)
  (agent : voiceAgent) (s : store) (base64Audio : string)
  : store * voiceAgent :=
  match voiceConversation s bubbleId base64Audio (conversationId agent) with
  | Done (s', response) =>
      (s', {| conversationId := Some (conversation_id response);
              lastTranscript := user_transcript response;
              lastResponse := bubble_response response;
              isProcessing := false |})
  | Failed _ =>
      (s, {| conversationId := conversationId agent;
             lastTranscript := lastTranscript agent;
             lastResponse := lastResponse agent;
             isProcessing := false |})
  end.

End Client.

(** ** A deterministic stand-in for the collaborators

    The specification asks for collaborators that a deterministic fake can
    replace.  This one runs the store and the orchestrator on concrete
    inputs: it scores the metrics with the algorithm of the specification
    under equal weights, hears the audio as its own transcript (and nothing
    in empty audio), replies by repeating the utterance and speaks the
    reply as it is. *)

Module Demo.
Import Backend.

Definition metric_values (m : MetricsData) : list (list Q) :=
  [ [ pe_ratio (category_1_valuation m);
      revenue_multiple (category_1_valuation m);
      market_cap_gdp (category_1_valuation m);
      growth_premium (category_1_valuation m) ];
    [ media_mentions (category_2_sentiment m);
      social_sentiment (category_2_sentiment m);
      search_trends (category_2_sentiment m);
      analyst_ratings (category_2_sentiment m);
      ipo_activity (category_2_sentiment m) ];
    [ fund_flows (category_3_positioning m);
      institutional_holdings (category_3_positioning m);
      retail_interest (category_3_positioning m);
      options_volume (category_3_positioning m) ];
    [ interest_rates (category_4_macro m);
      liquidity (category_4_macro m);
      vix (category_4_macro m);
      put_call_ratio (category_4_macro m) ];
    [ revenue_growth (category_5_fundamentals m);
      profit_margins (category_5_fundamentals m);
      capex_cycle (category_5_fundamentals m);
      adoption_rate (category_5_fundamentals m);
      competition (category_5_fundamentals m) ] ].

Definition persona (level : RiskLevel) : string :=
  match level with
  | LOW => "confident, euphoric"
  | MEDIUM => "anxious, uncertain"
  | HIGH => "panicked, fragile"
  end.

Definition assess_metrics (m : MetricsData) : outcome BubbleState :=
  if forallb (forallb View.in_range) (metric_values m) then
    let score :=
      Qred (Spec.risk_score
              (map (fun vs => (1%Q, map (fun v => (v, 1%Q)) vs))
                 (metric_values m))) in
    Done {| risk_score := score;
            risk_level := Spec.risk_level score;
            personality := persona (Spec.risk_level score);
            summary := EmptyString |}
  else Failed (ValidationError "metrics").

Definition collaborators : Collaborators :=
  {| assess := assess_metrics;
     transcribe := fun audio =>
       if String.eqb audio EmptyString then None else Some audio;
     generate := fun prompt => Some ("You said: " ++ utterance prompt)%string;
     synthesize := fun text => Some text |}.

(** The metrics whose values are all [v]. *)
Definition constant_metrics (v : Q) : MetricsData :=
  {| category_1_valuation := Build_MetricsCategory1 v v v v;
     category_2_sentiment := Build_MetricsCategory2 v v v v v;
     category_3_positioning := Build_MetricsCategory3 v v v v;
     category_4_macro := Build_MetricsCategory4 v v v v;
     category_5_fundamentals := Build_MetricsCategory5 v v v v v |}.

(** A store with the bubbles "market" and "personal_user". *)
Definition two_bubbles : store :=
  fst (@upsert collaborators
         (fst (@upsert collaborators ∅ "market" (constant_metrics 80)))
         "personal_user" (constant_metrics 10)).

End Demo.

(** ** More of the number operations *)

Module JSOps.
Local Open Scope Q_scope.

(** [a >= b]; every comparison with NaN is false. *)
Definition ge (a b : JS.number) : bool :=
  match a, b with
  | JS.NaN, _ | _, JS.NaN => false
  | _, _ => negb (JS.lt a b)
  end.

(** The sum of a list of numbers, from the left. *)
Definition sum (l : list JS.number) : JS.number :=
  fold_left JS.add l (JS.Num 0).

End JSOps.

(** ** pages/UserAnalysis.tsx: the handlers of the controls *)

Module UserEdits.

(** [handleCategoryWeightChange], on the previous state [prev]. *)
Definition handleCategoryWeightChange (prev : list Category.t)
  (categoryId : string) (weight : Q) : list Category.t :=
  map (fun cat =>
         if String.eqb (Category.id cat) categoryId
         then Category.mk (Category.id cat) (Category.indexes cat) weight
                (Category.marketWeight cat)
         else cat) prev.

(** [handleIndexValueChange], on the previous state [prev]. *)
Definition handleIndexValueChange (prev : list Category.t)
  (categoryId indexId : string) (value : Q) : list Category.t :=
  map (fun cat =>
         if String.eqb (Category.id cat) categoryId
         then Category.mk (Category.id cat)
                (map (fun idx =>
                        if String.eqb (Index.id idx) indexId
                        then Index.mk (Index.id idx) (Index.value idx)
                               (Index.marketWeight idx) (Some value)
                        else idx) (Category.indexes cat))
                (Category.userWeight cat) (Category.marketWeight cat)
         else cat) prev.

(** The function that [handleReset] maps over [CATEGORIES]. *)
Definition resetCategory (cat : Category.t) : Category.t :=
  Category.mk (Category.id cat)
    (map (fun idx => Index.mk (Index.id idx) (Index.value idx)
                       (Index.marketWeight idx) None) (Category.indexes cat))
    (Category.marketWeight cat) (Category.marketWeight cat).

Definition handleReset : list Category.t := map resetCategory CATEGORIES.

(** The "Market Consensus" figure of the page, before [toFixed(1)], on
    the categories [base] that the page takes from [CATEGORIES]. *)
Definition consensusOf (base : list Category.t) : JS.number :=
  let marketCategories :=
    map (fun cat =>
           Category.mk (Category.id cat)
             (map (fun idx => Index.mk (Index.id idx) (Index.value idx)
                                (Index.marketWeight idx) None)
                (Category.indexes cat))
             (Category.userWeight cat) (Category.marketWeight cat)) base in
  let totalScore :=
    fold_left
      (fun totalScore category =>
         let categoryScore :=
           JS.div
             (fold_left (fun sum index => JS.add sum (JS.Num (Index.value index)))
                (Category.indexes category) (JS.Num 0))
             (JS.length (Category.indexes category)) in
         JS.add totalScore
           (JS.mul categoryScore
              (JS.div (JS.Num (Category.marketWeight category)) (JS.Num 100))))
      marketCategories (JS.Num 0) in
  JS.min (JS.Num 100) (JS.div totalScore (JS.length marketCategories)).

Definition marketConsensus : JS.number := consensusOf CATEGORIES.

(** The edits of the page, and a sequence of them applied in order. *)
Inductive edit : Type :=
| WeightChange (categoryId : string) (weight : Q)
| ValueChange (categoryId indexId : string) (value : Q).

Definition apply (cats : list Category.t) (e : edit) : list Category.t :=
  match e with
  | WeightChange c w => handleCategoryWeightChange cats c w
  | ValueChange c i v => handleIndexValueChange cats c i v
  end.

Definition applyAll (edits : list edit) (cats : list Category.t)
  : list Category.t :=
  fold_left apply edits cats.

(** What [categoriesToMetrics] reads for the sub-indicator [i] of the
    category [c]: nothing when the category is missing. *)
Definition reading (u : bool) (cats : list Category.t) (c i : string)
  : option (result Q) :=
  option_map (fun cat => DataMapper.valueOf u cat i)
    (DataMapper.findCategory cats c).

End UserEdits.

(** ** pages/Index.tsx *)

Module IndexPage.

Definition calculateScore (cats : list Category.t) (useUserWeights : bool)
  : JS.number :=
  if useUserWeights then
    let totalScore :=
      fold_left
        (fun totalScore category =>
           let categoryScore :=
             JS.div
               (fold_left
                  (fun sum index =>
                     let indexValue :=
                       match Index.userValue index with
                       | Some v => v
                       | None => Index.value index
                       end in
                     JS.add sum (JS.Num indexValue))
                  (Category.indexes category) (JS.Num 0))
               (JS.length (Category.indexes category)) in
           JS.add totalScore
             (JS.mul categoryScore
                (JS.div (JS.Num (Category.userWeight category)) (JS.Num 100))))
        cats (JS.Num 0) in
    JS.min (JS.Num 100) (JS.div totalScore (JS.length cats))
  else
    let '(totalScore, totalWeight) :=
      fold_left
        (fun '(totalScore, totalWeight) category =>
           let categoryScore :=
             JS.div
               (fold_left (fun sum index => JS.add sum (JS.Num (Index.value index)))
                  (Category.indexes category) (JS.Num 0))
               (JS.length (Category.indexes category)) in
           (JS.add totalScore
              (JS.mul categoryScore (JS.Num (Category.marketWeight category))),
            JS.add totalWeight (JS.Num (Category.marketWeight category))))
        cats (JS.Num 0, JS.Num 0) in
    if JS.gt totalWeight (JS.Num 0)
    then JS.min (JS.Num 100) (JS.div totalScore totalWeight)
    else JS.Num 0.

End IndexPage.

(** ** components/CategoryControls.tsx *)

Module CategoryControls.

(** [toggleCategory], [toggleExplanation] and [toggleCategoryExplanation]
    are the same function on three sets: copy the set, delete the
    identifier if the copy has it, add it otherwise. *)
Definition toggleCategory (expandedCategories : gset string)
  (categoryId : string) : gset string :=
  if decide (categoryId ∈ expandedCategories)
  then expandedCategories ∖ {[categoryId]}
  else expandedCategories ∪ {[categoryId]}.

Definition getCategoryScore (category : Category.t) (useUserValues : bool)
  : JS.number :=
  JS.div
    (fold_left
       (fun sum index =>
          let value :=
            match useUserValues, Index.userValue index with
            | true, Some v => v
            | _, _ => Index.value index
            end in
          JS.add sum (JS.Num value))
       (Category.indexes category) (JS.Num 0))
    (JS.length (Category.indexes category)).

Definition getMarketCategoryScore (category : Category.t) : JS.number :=
  JS.div
    (fold_left (fun sum index => JS.add sum (JS.Num (Index.value index)))
       (Category.indexes category) (JS.Num 0))
    (JS.length (Category.indexes category)).

Definition getContribution (category : Category.t) : JS.number :=
  let categoryScore := getCategoryScore category true in
  JS.div (JS.mul categoryScore (JS.Num (Category.userWeight category)))
    (JS.Num 100).

Definition getTotalScore (categories : list Category.t) : JS.number :=
  let totalScore :=
    fold_left
      (fun totalScore cat =>
         let categoryScore := getCategoryScore cat true in
         JS.add totalScore
           (JS.mul categoryScore
              (JS.div (JS.Num (Category.userWeight cat)) (JS.Num 100))))
      categories (JS.Num 0) in
  JS.min (JS.Num 100) (JS.div totalScore (JS.length categories)).

(** [contributionPercentage] of a category card. *)
Definition contributionPercentage (categories : list Category.t)
  (category : Category.t) : JS.number :=
  let contribution := getContribution category in
  let totalScore := getTotalScore categories in
  if JS.gt totalScore (JS.Num 0)
  then JS.mul (JS.div contribution totalScore) (JS.Num 100)
  else JS.Num 0.

(** [getValueIndicator] of the read-only market factors: the label. *)
Definition getValueIndicator (value : JS.number) : string :=
  if JSOps.ge value (JS.Num 70) then "High Risk"
  else if JSOps.ge value (JS.Num 50) then "Elevated"
  else "Moderate".

End CategoryControls.

(** ** components/BubbleVisualization.tsx *)

Module BubbleVisualization.

Inductive burstRisk : Type := CRITICAL | HIGH_RISK | MODERATE | LOW_RISK.

(** [getBurstRisk]: the label ("CRITICAL", "HIGH", "MODERATE", "LOW"). *)
Definition getBurstRisk (score : JS.number) : burstRisk :=
  if JSOps.ge score (JS.Num 85) then CRITICAL
  else if JSOps.ge score (JS.Num 70) then HIGH_RISK
  else if JSOps.ge score (JS.Num 50) then MODERATE
  else LOW_RISK.

Definition getTimeEstimate (score : JS.number) : string :=
  if JSOps.ge score (JS.Num 90) then "< 14 days"
  else if JSOps.ge score (JS.Num 85) then "1-2 months"
  else if JSOps.ge score (JS.Num 75) then "2-4 months"
  else if JSOps.ge score (JS.Num 65) then "4-8 months"
  else if JSOps.ge score (JS.Num 50) then "8-18 months"
  else if JSOps.ge score (JS.Num 35) then "18-36 months"
  else "3+ years".

(** The rank of a burst risk and of a time estimate, the higher the
    nearer the burst. *)
Definition burstRank (r : burstRisk) : nat :=
  match r with
  | LOW_RISK => 0 | MODERATE => 1 | HIGH_RISK => 2 | CRITICAL => 3
  end.

Definition estimateRank (s : string) : nat :=
  if String.eqb s "< 14 days" then 6
  else if String.eqb s "1-2 months" then 5
  else if String.eqb s "2-4 months" then 4
  else if String.eqb s "4-8 months" then 3
  else if String.eqb s "8-18 months" then 2
  else if String.eqb s "18-36 months" then 1
  else 0.

End BubbleVisualization.

(** ** hooks/useVoiceAgent.ts: [base64ToBlob]

    [atob] is the browser's; the binary string it returns is a list of
    characters of codes 0 to 255. *)

Module VoiceAudio.

(** [byteCharacters.slice(offset, offset + 512)] *)
Definition slice512 (byteCharacters : list ascii) (offset : nat) : list ascii :=
  firstn 512 (skipn offset byteCharacters).

(** The inner loop and [new Uint8Array(byteNumbers)]: the character codes
    of the slice. *)
Definition byteArrayOf (slice : list ascii) : list N :=
  map N_of_ascii slice.

(** The outer loop, from [offset] with the arrays pushed so far; [None]
    if it has not ended after [fuel] rounds. *)
Fixpoint chunkLoop (fuel : nat) (byteCharacters : list ascii) (offset : nat)
  (byteArrays : list (list N)) : option (list (list N)) :=
  if offset <? List.length byteCharacters then
    match fuel with
    | O => None
    | S fuel' =>
        chunkLoop fuel' byteCharacters (offset + 512)
          (byteArrays ++ [byteArrayOf (slice512 byteCharacters offset)])
    end
  else Some byteArrays.

(** The parts of the blob that [base64ToBlob] builds from the decoded
    characters. *)
Definition blobParts (byteCharacters : list ascii) : option (list (list N)) :=
  chunkLoop (List.length byteCharacters) byteCharacters 0 [].

End VoiceAudio.

(** ** Helpers for the properties of the pages *)

Module Frame.

(** What the market mode reads of a payload: identifiers, market values
    and market weights. *)
Definition marketIndex (i : Index.t) : string * Q * Q :=
  (Index.id i, Index.value i, Index.marketWeight i).

Definition marketCategory (c : Category.t) : string * Q * list (string * Q * Q) :=
  (Category.id c, Category.marketWeight c, map marketIndex (Category.indexes c)).

Definition marketPart (cats : list Category.t)
  : list (string * Q * list (string * Q * Q)) :=
  map marketCategory cats.

(** [cats'] has the weights of [cats] and values at least as high, as
    the mode [u] reads them. *)
Definition raised (u : bool) (cats cats' : list Category.t) : Prop :=
  Forall2
    (fun c c' =>
       View.categoryWeight u c = View.categoryWeight u c'
       /\ Forall2
            (fun i i' =>
               View.indexWeight u i = View.indexWeight u i'
               /\ (DataMapper.getValue u i <= DataMapper.getValue u i')%Q)
            (Category.indexes c) (Category.indexes c'))
    cats cats'.

(** Multiply every category weight by [k]. *)
Definition scaleWeights (k : Q) (cats : list Category.t) : list Category.t :=
  map (fun c => Category.mk (Category.id c) (Category.indexes c)
                  (k * Category.userWeight c) (k * Category.marketWeight c))
    cats.

(** The identifiers of the categories are distinct, and so are those of
    the sub-indicators of each category. *)
Definition distinct (cats : list Category.t) : Prop :=
  List.NoDup (map Category.id cats)
  /\ Forall (fun c => List.NoDup (map Index.id (Category.indexes c))) cats.

(** [cats'] is [cats] with the categories in another order and, within
    each category, the sub-indicators in another order. *)
Definition reordered (cats cats' : list Category.t) : Prop :=
  exists mid : list Category.t,
    Permutation cats mid
    /\ Forall2 (fun c c' =>
                  Category.id c = Category.id c'
                  /\ Permutation (Category.indexes c) (Category.indexes c'))
         mid cats'.

(** The payload with the categories and the sub-indicators of each
    category in reverse order. *)
Definition reversed (cats : list Category.t) : list Category.t :=
  rev (map (fun c => Category.mk (Category.id c) (rev (Category.indexes c))
                       (Category.userWeight c) (Category.marketWeight c))
         cats).

(** Every category has at least one sub-indicator. *)
Definition nonempty (cats : list Category.t) : Prop :=
  Forall (fun c => Category.indexes c <> []) cats.

(** The rank of a risk level. *)
Definition levelRank (l : RiskLevel) : nat :=
  match l with LOW => 0 | MEDIUM => 1 | HIGH => 2 end.

(** The sum of the market weights of the categories. *)
Fixpoint marketWeightSum (cats : list Category.t) : Q :=
  match cats with
  | [] => 0
  | c :: rest => Category.marketWeight c + marketWeightSum rest
  end.

End Frame.

(** ** Sums and means in exact rational arithmetic *)

Module Mean.
Local Open Scope Q_scope.

Fixpoint total {A : Type} (f : A -> Q) (l : list A) : Q :=
  match l with
  | [] => 0
  | x :: rest => f x + total f rest
  end.

Definition count {A : Type} (l : list A) : Q :=
  inject_Z (Z.of_nat (List.length l)).

Definition meanOf {A : Type} (f : A -> Q) (l : list A) : Q :=
  total f l / count l.

(** The pairs (mean of the market values, market weight) of the
    categories. *)
Definition marketMeans (cats : list Category.t) : list (Q * Q) :=
  map (fun c => (meanOf Index.value (Category.indexes c),
                 Category.marketWeight c)) cats.

(** The pairs (mean of the values the user sees, user weight / 100). *)
Definition userMeans (cats : list Category.t) : list (Q * Q) :=
  map (fun c => (meanOf UserAnalysis.indexValue (Category.indexes c),
                 Category.userWeight c / 100)) cats.

End Mean.


(** ** components/BubbleTrendChart.tsx

    The label of a month comes from the clock and the locale and is left
    out of a data point. *)

Module BubbleTrendChart.
Local Open Scope Q_scope.

(** [-a] *)
Definition neg (a : JS.number) : JS.number :=
  match a with
  | JS.Num x => JS.Num (- x)
  | JS.PosInf => JS.NegInf
  | JS.NegInf => JS.PosInf
  | JS.NaN => JS.NaN
  end.

(** [a - b] *)
Definition sub (a b : JS.number) : JS.number := JS.add a (neg b).

(** [Math.max(a, b)] *)
Definition max (a b : JS.number) : JS.number :=
  match a, b with
  | JS.NaN, _ | _, JS.NaN => JS.NaN
  | JS.Num x, JS.Num y => JS.Num (Qmax x y)
  | JS.PosInf, _ | _, JS.PosInf => JS.PosInf
  | JS.NegInf, n | n, JS.NegInf => n
  end.

(** [Math.round(a)]: the nearest integer, halves upwards. *)
Definition round (a : JS.number) : JS.number :=
  match a with
  | JS.Num x => JS.Num (inject_Z (Qfloor (x + (1 # 2))))
  | other => other
  end.

(** [Math.pow(a, 2)] *)
Definition pow2 (a : JS.number) : JS.number := JS.mul a a.

Inductive kind : Type := historical | projected.

Record point : Type := {
  score : JS.number;
  monthIndex : Z;
  type : kind }.

Definition historicalScores : list Q :=
  [35; 38; 42; 45; 50; 54; 58; 63; 67; 70; 73; 75; 75].

(** The loop counter [i] as a number. *)
Definition num (i : nat) : JS.number := JS.Num (inject_Z (Z.of_nat i)).

(** [projectedScore] of the month [i] of the projection. *)
Definition projectedScore (currentScore : JS.number) (i : nat) : JS.number :=
  if JSOps.ge currentScore (JS.Num 85) then
    max (JS.Num 30)
      (sub currentScore
         (JS.div (JS.mul (num i) (sub currentScore (JS.Num 30))) (JS.Num 10)))
  else if JSOps.ge currentScore (JS.Num 70) then
    sub (JS.add currentScore (JS.min (JS.Num 10) (JS.mul (num i) (JS.Num 1.2))))
      (JS.mul (pow2 (max (JS.Num 0) (sub (num i) (JS.Num 8)))) (JS.Num 0.4))
  else if JSOps.ge currentScore (JS.Num 50) then
    JS.add currentScore (JS.mul (sub (JS.Num 18) (num i)) (JS.Num 0.8))
  else
    JS.min (JS.Num 85) (JS.add currentScore (JS.mul (num i) (JS.Num 1.8))).

(** The score of a projected point:
    [Math.max(0, Math.min(100, Math.round(projectedScore * 10) / 10))]. *)
Definition shownScore (projectedScore : JS.number) : JS.number :=
  max (JS.Num 0)
    (JS.min (JS.Num 100)
       (JS.div (round (JS.mul projectedScore (JS.Num 10))) (JS.Num 10))).

(** [generateTrendData]: the first loop runs [i] from 0 to 12 over
    [historicalScores], the second from 1 to 24. *)
Definition generateTrendData (currentScore : JS.number) : list point :=
  map (fun i => {| score := JS.Num (nth i historicalScores 0);
                   monthIndex := Z.of_nat i - 12;
                   type := historical |}) (seq 0 13)
  ++ map (fun i => {| score := shownScore (projectedScore currentScore i);
                      monthIndex := Z.of_nat i;
                      type := projected |}) (seq 1 24).

(** [array.findIndex((d, i) => p d i)], from the index [i] on; -1 when no
    element satisfies [p]. *)
Fixpoint findIndexFrom {A : Type} (p : A -> nat -> bool) (l : list A) (i : nat)
  : Z :=
  match l with
  | [] => (-1)%Z
  | d :: rest => if p d i then Z.of_nat i else findIndexFrom p rest (S i)
  end.

(** [burstIndex]: the first point after the current one, of index 12,
    whose score is below 0.7 times the current score. *)
Definition burstIndex (currentScore : JS.number) : Z :=
  findIndexFrom
    (fun d i => (12 <? i)%nat
                && JS.lt (score d) (JS.mul currentScore (JS.Num 0.7)))
    (generateTrendData currentScore) 0.

(** [getBurstRiskZone]: the bounds of the zone, or null. *)
Definition getBurstRiskZone (score : JS.number) : option (Q * Q) :=
  if JSOps.ge score (JS.Num 85) then Some (85, 100)
  else if JSOps.ge score (JS.Num 70) then Some (70, 85)
  else None.

End BubbleTrendChart.

(** ** The projection in exact rational arithmetic *)

Module Projection.
Local Open Scope Q_scope.

(** [projectedScore] on a finite score, the month as a rational. *)
Definition projectedQ (cs n : Q) : Q :=
  if Qlt_le_dec cs 85 then
    if Qlt_le_dec cs 70 then
      if Qlt_le_dec cs 50 then Qmin 85 (cs + n * 1.8)
      else cs + (18 + - n) * 0.8
    else cs + Qmin 10 (n * 1.2)
         + - (Qmax 0 (n + - 8) * Qmax 0 (n + - 8) * 0.4)
  else Qmax 30 (cs + - (n * (cs + - 30) / 10)).

Definition shownQ (p : Q) : Q :=
  Qmax 0 (Qmin 100 (inject_Z (Qfloor (p * 10 + (1 # 2))) / 10)).

End Projection.

(** * Properties *)

(** ** Numbers *)

Section Numbers.
Local Open Scope Q_scope.

Lemma lt_Num (x y : Q) : JS.lt (JS.Num x) (JS.Num y) = true <-> x < y.
Proof.
  unfold JS.lt. destruct (Qlt_le_dec x y) as [H | H]; split; intros; try easy.
  lra.
Qed.

Lemma lt_Num_false (x y : Q) : JS.lt (JS.Num x) (JS.Num y) = false <-> y <= x.
Proof.
  unfold JS.lt. destruct (Qlt_le_dec x y) as [H | H]; split; intros; try easy.
  lra.
Qed.

Lemma div_Num (x y : Q) : 0 < y -> JS.div (JS.Num x) (JS.Num y) = JS.Num (x / y).
Proof.
  intros Hy. unfold JS.div.
  destruct (Qeq_bool y 0) eqn:E; [|reflexivity].
  apply Qeq_bool_iff in E. lra.
Qed.

Lemma eqv_refl (a : JS.number) : JS.eqv a a.
Proof. destruct a; simpl; auto. reflexivity. Qed.

Lemma or_one_pos (w : Q) : 0 <= w -> 0 < JS.or_one w.
Proof.
  intros Hw. unfold JS.or_one.
  destruct (Qeq_bool w 0) eqn:E; [lra|].
  apply Qeq_bool_neq in E. destruct (Qlt_le_dec 0 w) as [H | H]; [exact H|].
  exfalso. apply E. lra.
Qed.

Lemma in_range_spec (q : Q) : View.in_range q = true <-> 0 <= q /\ q <= 100.
Proof.
  unfold View.in_range. rewrite andb_true_iff, !Qle_bool_iff. reflexivity.
Qed.

Lemma getRiskLevel_eqv (a b : JS.number) :
  JS.eqv a b -> DataMapper.getRiskLevel a = DataMapper.getRiskLevel b.
Proof.
  destruct a as [x| | |], b as [y| | |]; simpl; try easy.
  intros E. unfold DataMapper.getRiskLevel, JS.lt.
  destruct (Qlt_le_dec x 33), (Qlt_le_dec y 33); try lra; try reflexivity;
    destruct (Qlt_le_dec x 67), (Qlt_le_dec y 67); try lra; reflexivity.
Qed.

End Numbers.

(** ** Risk levels *)

Section RiskLevels.
Local Open Scope Q_scope.

(** C2, as the code has it: the thresholds of [getRiskLevel] are 33 and
    67, inclusive on the lower edge and exclusive on the upper.  A score
    strictly below 33 is LOW, a score of at least 33 and strictly below 67
    is MEDIUM, and a score of at least 67 is HIGH. *)
Theorem getRiskLevel_thresholds (score : Q) :
  (DataMapper.getRiskLevel (JS.Num score) = LOW <-> score < 33)
  /\ (DataMapper.getRiskLevel (JS.Num score) = MEDIUM
      <-> 33 <= score /\ score < 67)
  /\ (DataMapper.getRiskLevel (JS.Num score) = HIGH <-> 67 <= score).
Proof.
  unfold DataMapper.getRiskLevel, JS.lt.
  destruct (Qlt_le_dec score 33) as [H1 | H1];
    destruct (Qlt_le_dec score 67) as [H2 | H2];
    repeat split; intros; try discriminate; try reflexivity; lra.
Qed.

(** C2, refuted as stated: 33.33999 is not LOW and 66.67 is not HIGH,
    although the thresholds of the specification make them so. *)
Lemma getRiskLevel_not_spec_thresholds :
  DataMapper.getRiskLevel (JS.Num 33.33999) <> LOW
  /\ Spec.risk_level 33.33999 = LOW
  /\ DataMapper.getRiskLevel (JS.Num 66.67) <> HIGH
  /\ Spec.risk_level 66.67 = HIGH.
Proof. repeat split; vm_compute; congruence. Qed.

End RiskLevels.

(** ** [calculateClientRiskScore] never leaves the rationals *)

Section Exactness.
Local Open Scope Q_scope.

Lemma indexStep_exact (u : bool) (l : list Index.t) (a b : Q) :
  fold_left (DataMapper.indexStep u) l (JS.Num a, JS.Num b)
  = (JS.Num (fst (fold_left (Exact.indexStep u) l (a, b))),
     JS.Num (snd (fold_left (Exact.indexStep u) l (a, b)))).
Proof.
  revert a b. induction l as [|i l IH]; intros a b; [reflexivity|].
  cbn [fold_left]. unfold DataMapper.indexStep at 2.
  cbn [JS.add JS.mul]. rewrite IH. reflexivity.
Qed.

Lemma categoryScoreOf_exact (u : bool) (c : Category.t) :
  DataMapper.categoryScoreOf u c = JS.Num (Exact.categoryScoreOf u c).
Proof.
  unfold DataMapper.categoryScoreOf, DataMapper.categoryTotals,
    Exact.categoryScoreOf, Exact.categoryAccum.
  rewrite indexStep_exact.
  set (acc := fold_left (Exact.indexStep u) (Category.indexes c) (0, 0)).
  unfold JS.gt, JS.lt.
  destruct (Qlt_le_dec 0 (snd acc)) as [H | H]; [|reflexivity].
  apply div_Num, H.
Qed.

Lemma categoryStep_exact (u : bool) (l : list Category.t) (a b : Q) :
  fold_left (DataMapper.categoryStep u) l (JS.Num a, JS.Num b)
  = (JS.Num (fst (fold_left (Exact.categoryStep u) l (a, b))),
     JS.Num (snd (fold_left (Exact.categoryStep u) l (a, b)))).
Proof.
  revert a b. induction l as [|c l IH]; intros a b; [reflexivity|].
  cbn [fold_left]. unfold DataMapper.categoryStep at 2.
  rewrite categoryScoreOf_exact. cbn [JS.add JS.mul]. rewrite IH.
  reflexivity.
Qed.

Lemma calculateClientRiskScore_exact (cats : list Category.t) (u : bool) :
  DataMapper.calculateClientRiskScore cats u = JS.Num (Exact.riskScore cats u).
Proof.
  unfold DataMapper.calculateClientRiskScore, Exact.riskScore, Exact.totals.
  rewrite categoryStep_exact.
  set (acc := fold_left (Exact.categoryStep u) cats (0, 0)).
  unfold JS.gt, JS.lt.
  destruct (Qlt_le_dec 0 (snd acc)) as [H | H]; [|reflexivity].
  apply div_Num, H.
Qed.

End Exactness.

(** ** The weighted average *)

Section WeightedAverage.
Local Open Scope Q_scope.

Lemma fold_indexStep (u : bool) (l : list Index.t) (a b : Q) :
  fst (fold_left (Exact.indexStep u) l (a, b))
  == a + Spec.sum_weighted (View.pairs_of u l)
  /\ snd (fold_left (Exact.indexStep u) l (a, b))
     == b + Spec.sum_weights (View.pairs_of u l).
Proof.
  unfold View.pairs_of.
  revert a b. induction l as [|i l IH]; intros a b; cbn -[Qplus Qmult].
  - split; ring.
  - destruct (IH (a + DataMapper.getValue u i * View.indexWeight u i)
                 (b + View.indexWeight u i)) as [H1 H2].
    unfold Exact.indexStep at 2 4. cbn [fst snd].
    rewrite H1, H2. split; ring.
Qed.

Lemma sum_weights_nonneg (l : list (Q * Q)) :
  Forall (fun p => 0 <= snd p) l -> 0 <= Spec.sum_weights l.
Proof.
  induction 1 as [|[v w] l Hw _ IH]; cbn -[Qplus]; [lra|].
  cbn in Hw. lra.
Qed.

Lemma sum_weights_pos (l : list (Q * Q)) :
  l <> [] -> Forall (fun p => 0 < snd p) l -> 0 < Spec.sum_weights l.
Proof.
  intros Hne H. destruct H as [|[v w] l Hw Hl]; [congruence|].
  cbn -[Qplus]. cbn in Hw.
  assert (0 <= Spec.sum_weights l).
  { apply sum_weights_nonneg. eapply Forall_impl; [exact Hl|].
    intros p Hp. cbn in Hp. lra. }
  lra.
Qed.

Lemma sum_weighted_zero (l : list (Q * Q)) :
  Forall (fun p => 0 <= snd p) l -> Spec.sum_weights l == 0 ->
  Spec.sum_weighted l == 0.
Proof.
  induction 1 as [|[v w] l Hw Hl IH]; cbn -[Qplus Qmult]; [reflexivity|].
  cbn in Hw. intros Hs.
  pose proof (sum_weights_nonneg l Hl) as Hn.
  assert (Hw0 : w == 0) by lra.
  assert (Hl0 : Spec.sum_weights l == 0) by lra.
  rewrite (IH Hl0), Hw0. ring.
Qed.

Lemma sum_weighted_bound (m : Q) (l : list (Q * Q)) :
  Forall (fun p => fst p <= m /\ 0 <= snd p) l ->
  Spec.sum_weighted l <= m * Spec.sum_weights l.
Proof.
  induction 1 as [|[v w] l [Hv Hw] _ IH]; cbn -[Qplus Qmult]; [lra|].
  cbn in Hv, Hw. nra.
Qed.

Lemma sum_weighted_low (m : Q) (l : list (Q * Q)) :
  Forall (fun p => m <= fst p /\ 0 <= snd p) l ->
  m * Spec.sum_weights l <= Spec.sum_weighted l.
Proof.
  induction 1 as [|[v w] l [Hv Hw] _ IH]; cbn -[Qplus Qmult]; [lra|].
  cbn in Hv, Hw. nra.
Qed.

Lemma sum_weighted_const (v : Q) (l : list (Q * Q)) :
  Forall (fun p => fst p == v) l ->
  Spec.sum_weighted l == v * Spec.sum_weights l.
Proof.
  induction 1 as [|[x w] l Hx _ IH]; cbn -[Qplus Qmult]; [ring|].
  cbn in Hx. rewrite IH, Hx. ring.
Qed.

Lemma div_bounds (lo hi x y : Q) :
  0 < y -> lo * y <= x -> x <= hi * y -> lo <= x / y /\ x / y <= hi.
Proof.
  intros Hy Hlo Hhi. split.
  - apply Qle_shift_div_l; [exact Hy|]. exact Hlo.
  - apply Qle_shift_div_r; [exact Hy|]. exact Hhi.
Qed.

Lemma div_const (v y : Q) : 0 < y -> v * y / y == v.
Proof. intros Hy. field. lra. Qed.

(** The category score of the specification lies between the bounds of
    the values. *)
Lemma category_score_bounds (lo hi : Q) (l : list (Q * Q)) :
  lo <= 0 -> 0 <= hi ->
  Forall (fun p => (lo <= fst p /\ fst p <= hi) /\ 0 <= snd p) l ->
  lo <= Spec.category_score l /\ Spec.category_score l <= hi.
Proof.
  intros Hlo Hhi H. unfold Spec.category_score.
  destruct (Qeq_bool (Spec.sum_weights l) 0) eqn:E; [lra|].
  apply Qeq_bool_neq in E.
  assert (Hn : 0 <= Spec.sum_weights l).
  { apply sum_weights_nonneg. eapply Forall_impl; [exact H|]. cbn. tauto. }
  apply div_bounds.
  - destruct (Qlt_le_dec 0 (Spec.sum_weights l)); [assumption|].
    exfalso. apply E. lra.
  - apply sum_weighted_low. eapply Forall_impl; [exact H|]. cbn. tauto.
  - apply sum_weighted_bound. eapply Forall_impl; [exact H|]. cbn. tauto.
Qed.

(** With non-negative weights the guarded division of the code is the
    category score of the specification. *)
Lemma categoryScoreOf_spec (u : bool) (c : Category.t) :
  Forall (fun p => 0 <= snd p) (View.pairs_of u (Category.indexes c)) ->
  Exact.categoryScoreOf u c
  == Spec.category_score (View.pairs_of u (Category.indexes c)).
Proof.
  intros Hw. unfold Exact.categoryScoreOf, Exact.categoryAccum, Spec.category_score.
  destruct (fold_indexStep u (Category.indexes c) 0 0) as [H1 H2].
  set (acc := fold_left (Exact.indexStep u) (Category.indexes c) (0, 0)) in *.
  set (l := View.pairs_of u (Category.indexes c)) in *.
  rewrite Qplus_0_l in H1, H2.
  destruct (Qlt_le_dec 0 (snd acc)) as [Hp | Hp];
    destruct (Qeq_bool (Spec.sum_weights l) 0) eqn:E.
  - apply Qeq_bool_iff in E. lra.
  - rewrite H1, H2. reflexivity.
  - apply Qeq_bool_iff in E. rewrite H1. apply sum_weighted_zero; assumption.
  - apply Qeq_bool_neq in E. pose proof (sum_weights_nonneg l Hw).
    exfalso. apply E. lra.
Qed.

Lemma fold_categoryStep (u : bool) (l : list Category.t) (a b : Q) :
  fst (fold_left (Exact.categoryStep u) l (a, b))
  == a + Spec.sum_weighted (Exact.scored_of u l)
  /\ snd (fold_left (Exact.categoryStep u) l (a, b))
     == b + Spec.sum_weights (Exact.scored_of u l).
Proof.
  unfold Exact.scored_of.
  revert a b. induction l as [|c l IH]; intros a b; cbn -[Qplus Qmult].
  - split; ring.
  - destruct (IH (a + Exact.categoryScoreOf u c * View.categoryWeight u c)
                 (b + View.categoryWeight u c)) as [H1 H2].
    unfold Exact.categoryStep at 2 4. cbn [fst snd].
    rewrite H1, H2. split; ring.
Qed.

(** Sums of pairs that agree up to the representation of the rationals. *)
Lemma sums_eqv (l l' : list (Q * Q)) :
  Forall2 (fun p q => fst p == fst q /\ snd p == snd q) l l' ->
  Spec.sum_weighted l == Spec.sum_weighted l'
  /\ Spec.sum_weights l == Spec.sum_weights l'.
Proof.
  induction 1 as [|[v w] [v' w'] l l' [Hv Hw] _ [IH1 IH2]];
    cbn -[Qplus Qmult]; [split; reflexivity|].
  cbn in Hv, Hw. rewrite IH1, IH2, Hv, Hw. split; reflexivity.
Qed.

End WeightedAverage.

(** ** The risk score of [calculateClientRiskScore] *)

Section RiskScore.
Local Open Scope Q_scope.

Lemma valid_pairs (u : bool) (c : Category.t) :
  View.valid_category c = true ->
  Forall (fun p => (0 <= fst p /\ fst p <= 100) /\ 0 < snd p)
    (View.pairs_of u (Category.indexes c)).
Proof.
  unfold View.valid_category. rewrite !andb_true_iff, forallb_forall.
  intros [_ H]. unfold View.pairs_of. apply List.Forall_forall.
  intros p Hp. apply in_map_iff in Hp. destruct Hp as [i [<- Hi]].
  specialize (H i Hi). unfold View.valid_index in H.
  rewrite !andb_true_iff, !in_range_spec in H. destruct H as [[Hv Hw] Hu].
  cbn [fst snd]. split.
  - unfold DataMapper.getValue.
    destruct u; [|exact Hv].
    destruct (Index.userValue i); [|exact Hv].
    apply in_range_spec, Hu.
  - unfold View.indexWeight. destruct u; [lra|]. apply or_one_pos, Hw.
Qed.

Lemma valid_category_weight (u : bool) (c : Category.t) :
  View.valid_category c = true -> 0 <= View.categoryWeight u c.
Proof.
  unfold View.valid_category. rewrite !andb_true_iff, !in_range_spec.
  intros [[Hu Hm] _]. unfold View.categoryWeight. destruct u; tauto.
Qed.

Lemma valid_categoryScoreOf (u : bool) (c : Category.t) :
  View.valid_category c = true ->
  Exact.categoryScoreOf u c
  == Spec.category_score (View.pairs_of u (Category.indexes c))
  /\ 0 <= Exact.categoryScoreOf u c /\ Exact.categoryScoreOf u c <= 100.
Proof.
  intros Hc. pose proof (valid_pairs u c Hc) as Hp.
  assert (E : Exact.categoryScoreOf u c
              == Spec.category_score (View.pairs_of u (Category.indexes c))).
  { apply categoryScoreOf_spec. eapply Forall_impl; [exact Hp|].
    cbn. intros p H. lra. }
  split; [exact E|]. rewrite E.
  apply category_score_bounds; [lra|lra|].
  eapply Forall_impl; [exact Hp|]. cbn. intros p H. lra.
Qed.

Lemma scored_of_spec (u : bool) (cats : list Category.t) :
  View.valid cats = true ->
  Forall2 (fun p q => fst p == fst q /\ snd p == snd q)
    (Exact.scored_of u cats) (Spec.scored (View.effective u cats)).
Proof.
  unfold View.valid. rewrite forallb_forall.
  induction cats as [|c cats IH]; intros H; cbn; constructor.
  - cbn [fst snd]. split; [|reflexivity].
    apply valid_categoryScoreOf, H. now left.
  - apply IH. intros x Hx. apply H. now right.
Qed.

Lemma scored_of_bounds (u : bool) (cats : list Category.t) :
  View.valid cats = true ->
  Forall (fun p => (0 <= fst p /\ fst p <= 100) /\ 0 <= snd p)
    (Exact.scored_of u cats).
Proof.
  unfold View.valid. rewrite forallb_forall. intros H.
  unfold Exact.scored_of. apply List.Forall_forall. intros p Hp.
  apply in_map_iff in Hp. destruct Hp as [c [<- Hc]]. cbn [fst snd].
  specialize (H c Hc). split.
  - apply valid_categoryScoreOf, H.
  - apply valid_category_weight, H.
Qed.

Lemma totalWeight_scored (u : bool) (cats : list Category.t) :
  View.totalWeight u cats == Spec.sum_weights (Exact.scored_of u cats).
Proof.
  induction cats as [|c cats IH]; cbn -[Qplus]; [reflexivity|].
  rewrite IH. reflexivity.
Qed.

Lemma riskScore_spec (u : bool) (cats : list Category.t) :
  View.valid cats = true ->
  Exact.riskScore cats u == Spec.risk_score (View.effective u cats)
  /\ 0 <= Exact.riskScore cats u /\ Exact.riskScore cats u <= 100
  /\ (View.totalWeight u cats == 0 -> Exact.riskScore cats u == 0).
Proof.
  intros Hv.
  destruct (fold_categoryStep u cats 0 0) as [H1 H2].
  destruct (sums_eqv _ _ (scored_of_spec u cats Hv)) as [E1 E2].
  pose proof (scored_of_bounds u cats Hv) as Hb.
  assert (Hlo : 0 * Spec.sum_weights (Exact.scored_of u cats)
                <= Spec.sum_weighted (Exact.scored_of u cats)).
  { apply sum_weighted_low. eapply Forall_impl; [exact Hb|]. cbn. tauto. }
  assert (Hhi : Spec.sum_weighted (Exact.scored_of u cats)
                <= 100 * Spec.sum_weights (Exact.scored_of u cats)).
  { apply sum_weighted_bound. eapply Forall_impl; [exact Hb|]. cbn. tauto. }
  assert (Hn : 0 <= Spec.sum_weights (Exact.scored_of u cats)).
  { apply sum_weights_nonneg. eapply Forall_impl; [exact Hb|]. cbn. tauto. }
  rewrite totalWeight_scored.
  unfold Exact.riskScore, Spec.risk_score, Exact.totals.
  set (acc := fold_left (Exact.categoryStep u) cats (0, 0)) in *.
  rewrite Qplus_0_l in H1, H2. rewrite <- E1, <- E2.
  set (T := Spec.sum_weighted (Exact.scored_of u cats)) in *.
  set (W := Spec.sum_weights (Exact.scored_of u cats)) in *.
  destruct (Qlt_le_dec 0 (snd acc)) as [Hp | Hp].
  - assert (HW : 0 < W) by lra.
    destruct (div_bounds 0 100 T W HW Hlo Hhi) as [B1 B2].
    rewrite H1, H2. split; [|split; [|split]]; try assumption.
    + symmetry. apply Q.min_r. exact B2.
    + intros Z. lra.
  - assert (HW : W == 0) by lra.
    assert (HT : T / W == 0).
    { unfold Qdiv. rewrite HW. unfold Qinv. cbn. ring. }
    rewrite HT. split; [|split; [|split]]; try lra.
    symmetry. apply Q.min_r. lra.
Qed.




(** The score of the user analysis page on the [CATEGORIES] constant is
    half the mean of the category means, 37.41, where the weighted average
    of the specification is about 74.92. *)
Example UserAnalysis_score_of_CATEGORIES :
  JS.eqv (UserAnalysis.calculateScore CATEGORIES) (JS.Num 37.41)
  /\ 74 < Spec.risk_score (View.declared CATEGORIES).
Proof. split; vm_compute; reflexivity. Qed.

End RiskScore.

(** ** Indicator sets of one value *)

Section ConstantIndicators.
Local Open Scope Q_scope.

Lemma constant_category (v : Q) (c : Category.t) :
  View.valid_category c = true -> Category.indexes c <> [] ->
  Forall (fun i => Index.value i == v) (Category.indexes c) ->
  Exact.categoryScoreOf false c == v.
Proof.
  intros Hc Hne Hv.
  destruct (valid_categoryScoreOf false c Hc) as [E _]. rewrite E.
  pose proof (valid_pairs false c Hc) as Hp.
  set (l := View.pairs_of false (Category.indexes c)) in *.
  assert (Hl : l <> []).
  { unfold l, View.pairs_of. destruct (Category.indexes c); [congruence|].
    discriminate. }
  assert (HW : 0 < Spec.sum_weights l).
  { apply sum_weights_pos; [exact Hl|].
    eapply Forall_impl; [exact Hp|]. cbn. tauto. }
  assert (HS : Spec.sum_weighted l == v * Spec.sum_weights l).
  { apply sum_weighted_const. unfold l, View.pairs_of.
    apply List.Forall_forall. intros p Hin. apply in_map_iff in Hin.
    destruct Hin as [i [<- Hi]]. cbn [fst].
    rewrite List.Forall_forall in Hv. apply Hv, Hi. }
  unfold Spec.category_score.
  destruct (Qeq_bool (Spec.sum_weights l) 0) eqn:Z.
  - apply Qeq_bool_iff in Z. lra.
  - rewrite HS. apply div_const, HW.
Qed.

Lemma constant_risk (v : Q) (cats : list Category.t) :
  View.valid cats = true ->
  Forall (fun c => Category.indexes c <> []) cats ->
  View.all_values v cats ->
  0 < View.totalWeight false cats ->
  Exact.riskScore cats false == v.
Proof.
  intros Hv Hne Hall HW.
  destruct (fold_categoryStep false cats 0 0) as [H1 H2].
  rewrite totalWeight_scored in HW.
  assert (HS : Spec.sum_weighted (Exact.scored_of false cats)
               == v * Spec.sum_weights (Exact.scored_of false cats)).
  { apply sum_weighted_const. unfold Exact.scored_of.
    apply List.Forall_forall. intros p Hin. apply in_map_iff in Hin.
    destruct Hin as [c [<- Hc]]. cbn [fst].
    unfold View.valid in Hv. rewrite forallb_forall in Hv.
    unfold View.all_values in Hall. rewrite List.Forall_forall in Hne, Hall.
    apply constant_category; auto. }
  unfold Exact.riskScore, Exact.totals.
  set (acc := fold_left (Exact.categoryStep false) cats (0, 0)) in *.
  rewrite Qplus_0_l in H1, H2.
  destruct (Qlt_le_dec 0 (snd acc)) as [Hp | Hp]; [|lra].
  rewrite H1, H2, HS. apply div_const, HW.
Qed.

(** Equal positive category weights have a positive sum. *)
Lemma equal_weights_total (c : Q) (cats : list Category.t) :
  cats <> [] -> 0 < c ->
  Forall (fun x => Category.marketWeight x == c) cats ->
  0 < View.totalWeight false cats.
Proof.
  intros Hne Hc H. induction H as [|x l Hx Hl IH]; [congruence|].
  cbn -[Qplus]. unfold View.categoryWeight. rewrite Hx.
  destruct l as [|y l]; [cbn; lra|].
  assert (0 < View.totalWeight false (y :: l)) by (apply IH; discriminate).
  lra.
Qed.

(** The example of the specification on [calculateClientRiskScore]:
    uniform values of 50, uniform sub-indicator weights and five equal,
    positive category weights give the score 50. *)
Corollary uniform_fifty (cats : list Category.t) (c : Q) :
  View.valid cats = true ->
  View.five_categories cats ->
  View.uniform_weights cats ->
  Forall (fun x => Category.marketWeight x == c) cats ->
  0 < c ->
  View.all_values 50 cats ->
  JS.eqv (DataMapper.calculateClientRiskScore cats false) (JS.Num 50).
Proof.
  intros Hv [H5 Hne] _ Hc Hpos Hall.
  rewrite calculateClientRiskScore_exact. cbn.
  apply constant_risk; try assumption.
  apply (equal_weights_total c); try assumption.
  destruct cats; [discriminate|discriminate].
Qed.

(** The score of the user analysis page on categories that all have the
    user weight [c] and sub-indicators that all have the value [v] is
    [v * c / 100], under the ceiling of 100: the value itself only for
    the weight 100. *)
Lemma UserAnalysis_uniform (v c : Q) (cats : list Category.t) :
  cats <> [] ->
  Forall (fun x => Category.indexes x <> []
                   /\ Forall (fun i => UserAnalysis.indexValue i == v)
                        (Category.indexes x)
                   /\ Category.userWeight x == c) cats ->
  JS.eqv (UserAnalysis.calculateScore cats)
    (JS.Num (Qmin 100 (v * (c / 100)))).
Proof.
  intros Hne Hall.
  assert (Hlen : forall A (l : list A), l <> [] ->
                 0 < inject_Z (Z.of_nat (List.length l))).
  { intros A l Hl. destruct l; [congruence|].
    change 0 with (inject_Z 0). rewrite <- Zlt_Qlt. cbn [List.length]. lia. }
  assert (Hsucc : forall n, inject_Z (Z.of_nat (S n))
                            == inject_Z (Z.of_nat n) + 1).
  { intros n. rewrite Nat2Z.inj_succ. unfold Z.succ.
    rewrite inject_Z_plus. reflexivity. }
  assert (Hin : forall l a,
             Forall (fun i => UserAnalysis.indexValue i == v) l ->
             exists q,
               fold_left (fun sum index =>
                            JS.add sum (JS.Num (UserAnalysis.indexValue index)))
                 l (JS.Num a) = JS.Num q
               /\ q == a + inject_Z (Z.of_nat (List.length l)) * v).
  { induction l as [|i l IH]; intros a Hl.
    - exists a. split; [reflexivity|]. cbn. ring.
    - inversion Hl as [|? ? Hi Hl']; subst.
      destruct (IH (a + UserAnalysis.indexValue i) Hl') as (q & E & Hq).
      exists q. split; [exact E|].
      rewrite Hq. cbn [List.length]. rewrite Hsucc, Hi. ring. }
  assert (Hcat : forall x,
             Category.indexes x <> [] ->
             Forall (fun i => UserAnalysis.indexValue i == v)
               (Category.indexes x) ->
             exists q, UserAnalysis.categoryScore x = JS.Num q /\ q == v).
  { intros x Hx Hv. unfold UserAnalysis.categoryScore, JS.length.
    destruct (Hin _ 0 Hv) as (q & -> & Hq).
    pose proof (Hlen _ _ Hx) as Hn.
    rewrite div_Num by exact Hn. eexists. split; [reflexivity|].
    rewrite Hq. field. lra. }
  assert (Hout : forall l a,
             Forall (fun x => Category.indexes x <> []
                              /\ Forall (fun i => UserAnalysis.indexValue i == v)
                                   (Category.indexes x)
                              /\ Category.userWeight x == c) l ->
             exists q,
               fold_left UserAnalysis.step l (JS.Num a) = JS.Num q
               /\ q == a + inject_Z (Z.of_nat (List.length l)) * (v * (c / 100))).
  { induction l as [|x l IH]; intros a Hl.
    - exists a. split; [reflexivity|]. cbn. ring.
    - inversion Hl as [|? ? (Hx & Hv & Hw) Hl']; subst.
      destruct (Hcat x Hx Hv) as (q & Eq & Hq).
      cbn [fold_left]. unfold UserAnalysis.step at 2.
      rewrite Eq, div_Num by lra. cbn [JS.mul JS.add].
      destruct (IH (a + q * (Category.userWeight x / 100)) Hl')
        as (q' & E & Hq').
      exists q'. split; [exact E|].
      rewrite Hq'. cbn [List.length]. rewrite Hsucc, Hq, Hw. ring. }
  unfold UserAnalysis.calculateScore, JS.length.
  destruct (Hout cats 0 Hall) as (q & -> & Hq).
  pose proof (Hlen _ _ Hne) as Hn.
  rewrite div_Num by exact Hn. cbn [JS.min JS.eqv].
  assert (E : q / inject_Z (Z.of_nat (List.length cats)) == v * (c / 100)).
  { rewrite Hq. field. lra. }
  rewrite E. reflexivity.
Qed.




End ConstantIndicators.

(** ** The ceiling of 100 *)

Section Ceiling.
Local Open Scope Q_scope.

Lemma min_100_not_above (x : JS.number) :
  JS.lt (JS.Num 100) (JS.min (JS.Num 100) x) = false.
Proof.
  destruct x as [y| | |]; cbn [JS.min]; try reflexivity.
  apply lt_Num_false. apply Q.le_min_l.
Qed.

(** The score of the market consensus page is never above 100. *)
Lemma MarketConsensus_not_above_100 (cats : list Category.t) :
  JS.lt (JS.Num 100) (MarketConsensus.calculateScore cats) = false.
Proof.
  unfold MarketConsensus.calculateScore.
  destruct (fold_left MarketConsensus.step cats (JS.Num 0, JS.Num 0))
    as [totalScore totalWeight].
  destruct (JS.gt totalWeight (JS.Num 0)); [apply min_100_not_above|].
  apply lt_Num_false. lra.
Qed.

(** The score of the user analysis page is never above 100. *)
Lemma UserAnalysis_not_above_100 (cats : list Category.t) :
  JS.lt (JS.Num 100) (UserAnalysis.calculateScore cats) = false.
Proof. apply min_100_not_above. Qed.

(** C4, on the code: with every market value at 150 the weighted
    aggregation is 150; [calculateClientRiskScore] returns 150, above 100,
    where [calculateScore] of the market consensus page returns 100. *)
Theorem calculateClientRiskScore_above_100 :
  let cats := View.set_values 150 CATEGORIES in
  JS.eqv (DataMapper.calculateClientRiskScore cats false) (JS.Num 150)
  /\ JS.lt (JS.Num 100) (DataMapper.calculateClientRiskScore cats false) = true
  /\ JS.eqv (MarketConsensus.calculateScore cats) (JS.Num 100).
Proof. repeat split; vm_compute; reflexivity. Qed.

End Ceiling.

(** ** Divisions by zero *)

Section Divisions.
Local Open Scope Q_scope.

Lemma categoryTotals_exact (u : bool) (c : Category.t) :
  DataMapper.categoryTotals u c
  = (JS.Num (fst (Exact.categoryAccum u c)),
     JS.Num (snd (Exact.categoryAccum u c))).
Proof. apply indexStep_exact. Qed.

(** With positive weights only the empty list has total weight zero. *)
Lemma sum_weights_zero_nil (l : list (Q * Q)) :
  Forall (fun p => 0 < snd p) l -> Spec.sum_weights l == 0 -> l = [].
Proof.
  intros H Z. destruct l as [|p l]; [reflexivity|].
  assert (0 < Spec.sum_weights (p :: l)) by (apply sum_weights_pos; easy).
  lra.
Qed.




End Divisions.

(** ** [categoriesToMetrics] *)

Section Normalisation.
Local Open Scope string_scope.

Lemma find_Forall2 {A : Type} (R : A -> A -> Prop) (p : A -> bool)
  (l l' : list A) :
  (forall x y, R x y -> p x = p y) ->
  Forall2 R l l' -> View.option_rel R (List.find p l) (List.find p l').
Proof.
  intros Hp. induction 1 as [|x y l l' Hxy _ IH]; cbn; [exact I|].
  rewrite <- (Hp x y Hxy). destruct (p x); [exact Hxy|exact IH].
Qed.

Lemma findCategory_rel g u u' cats cats' (i : string) :
  Forall2 (View.category_rel g u u') cats cats' ->
  View.option_rel (View.category_rel g u u')
    (DataMapper.findCategory cats i) (DataMapper.findCategory cats' i).
Proof.
  apply find_Forall2. intros x y [E _]. now rewrite E.
Qed.

Lemma valueOf_rel g u u' c c' (i : string) :
  View.category_rel g u u' c c' ->
  DataMapper.valueOf u' c' i = View.map_result g (DataMapper.valueOf u c i).
Proof.
  intros [Eid Hix]. unfold DataMapper.valueOf, DataMapper.findIndex.
  pose proof (find_Forall2 (View.index_rel g u u')
                (fun x => String.eqb (Index.id x) i) _ _
                (fun x y H => f_equal (fun s => String.eqb s i) (proj1 H)) Hix)
    as H.
  unfold DataMapper.lookupIndex.
  destruct (List.find _ (Category.indexes c)) as [x|],
           (List.find _ (Category.indexes c')) as [y|]; cbn in H; try easy.
  - cbn. f_equal. apply H.
  - cbn. now rewrite Eid.
Qed.

(** Related payloads have related metrics, and fail alike. *)
Lemma categoriesToMetrics_rel g u u' cats cats' :
  Forall2 (View.category_rel g u u') cats cats' ->
  DataMapper.categoriesToMetrics cats' u'
  = View.map_result (View.map_metrics g) (DataMapper.categoriesToMetrics cats u).
Proof.
  intros H. unfold DataMapper.categoriesToMetrics.
  pose proof (findCategory_rel g u u' cats cats' "valuation" H) as R1.
  pose proof (findCategory_rel g u u' cats cats' "sentiment" H) as R2.
  pose proof (findCategory_rel g u u' cats cats' "positioning" H) as R3.
  pose proof (findCategory_rel g u u' cats cats' "macro" H) as R4.
  pose proof (findCategory_rel g u u' cats cats' "fundamentals" H) as R5.
  destruct (DataMapper.findCategory cats "valuation") as [c1|],
           (DataMapper.findCategory cats' "valuation") as [d1|];
    cbn in R1; try easy;
  destruct (DataMapper.findCategory cats "sentiment") as [c2|],
           (DataMapper.findCategory cats' "sentiment") as [d2|];
    cbn in R2; try easy;
  destruct (DataMapper.findCategory cats "positioning") as [c3|],
           (DataMapper.findCategory cats' "positioning") as [d3|];
    cbn in R3; try easy;
  destruct (DataMapper.findCategory cats "macro") as [c4|],
           (DataMapper.findCategory cats' "macro") as [d4|];
    cbn in R4; try easy;
  destruct (DataMapper.findCategory cats "fundamentals") as [c5|],
           (DataMapper.findCategory cats' "fundamentals") as [d5|];
    cbn in R5; try easy.
  cbv zeta.
  rewrite !(valueOf_rel g u u' c1 d1) by exact R1.
  repeat (rewrite ?(valueOf_rel g u u' c1 d1 _ R1),
                  ?(valueOf_rel g u u' c2 d2 _ R2),
                  ?(valueOf_rel g u u' c3 d3 _ R3),
                  ?(valueOf_rel g u u' c4 d4 _ R4),
                  ?(valueOf_rel g u u' c5 d5 _ R5);
          match goal with
          | |- context [bind (View.map_result g ?r) _] =>
              destruct r; cbn [bind View.map_result]; [|reflexivity]
          end).
  reflexivity.
Qed.

Lemma retouch_rel (g h : Q -> Q) (u : bool) (cats : list Category.t) :
  Forall2 (View.category_rel g u u) cats (View.retouch_payload g h cats).
Proof.
  induction cats as [|c cats IH]; cbn; constructor; [|exact IH].
  split; [reflexivity|]. cbn.
  induction (Category.indexes c) as [|i l IHl]; cbn; constructor; [|exact IHl].
  split; [reflexivity|]. unfold DataMapper.getValue. cbn.
  destruct u; [|reflexivity]. destruct (Index.userValue i); reflexivity.
Qed.

Lemma market_values_rel (cats1 cats2 : list Category.t) :
  View.market_values cats1 = View.market_values cats2 ->
  Forall2 (View.category_rel (fun q => q) false false) cats1 cats2.
Proof.
  revert cats2. induction cats1 as [|c cats1 IH]; intros [|d cats2] E;
    cbn in E; try discriminate; constructor.
  - injection E as Eid Eix _. split; [exact Eid|].
    clear -Eix. revert Eix.
    generalize (Category.indexes d). induction (Category.indexes c) as [|i l IHl];
      intros [|j l'] E; cbn in E; try discriminate; constructor.
    + injection E as Ei Ev _. split; [exact Ei|]. cbn. now rewrite Ev.
    + apply IHl. now injection E.
  - apply IH. now injection E.
Qed.

Lemma map_metrics_id (r : result MetricsData) :
  View.map_result (View.map_metrics (fun q => q)) r = r.
Proof.
  destruct r as [m|]; [|reflexivity].
  destruct m as [[] [] [] [] []]. reflexivity.
Qed.

(** C6, as the code has it: [categoriesToMetrics] checks no range and
    clamps nothing.  Whatever function [g] is applied to the values and
    whatever function [h] to the weights of a payload, into or out of
    [0,100], the changed payload fails exactly when the original does,
    with the same error, and otherwise its metrics are the metrics of the
    original with [g] applied: every value reaches the metrics as it is,
    and no weight is read. *)
Theorem categoriesToMetrics_copies_values (g h : Q -> Q)
  (cats : list Category.t) (u : bool) :
  DataMapper.categoriesToMetrics (View.retouch_payload g h cats) u
  = View.map_result (View.map_metrics g) (DataMapper.categoriesToMetrics cats u).
Proof. apply categoriesToMetrics_rel, retouch_rel. Qed.

(** C6, refuted as stated: a payload whose values are all 150 and whose
    weights are all 500 is normalised without an error, and 150 is the P/E
    ratio of the metrics. *)
Lemma categoriesToMetrics_accepts_150 :
  let cats := View.set_values 150 (View.set_weights 500 500 CATEGORIES) in
  View.in_range 150 = false /\ View.in_range 500 = false
  /\ exists m : MetricsData,
       DataMapper.categoriesToMetrics cats false = Ok m
       /\ pe_ratio (category_1_valuation m) = 150%Q.
Proof.
  split; [reflexivity|]. split; [reflexivity|]. eexists. split; reflexivity.
Qed.

(** C10: with [useUserValues = false] the result of [categoriesToMetrics],
    metrics or error, depends on the identifiers and the market values
    only: payloads that agree on these have the same result, however they
    differ in user values. *)
Theorem categoriesToMetrics_ignores_userValue (cats1 cats2 : list Category.t) :
  View.market_values cats1 = View.market_values cats2 ->
  DataMapper.categoriesToMetrics cats1 false
  = DataMapper.categoriesToMetrics cats2 false.
Proof.
  intros E. symmetry.
  rewrite (categoriesToMetrics_rel (fun q => q) false false cats1 cats2).
  - apply map_metrics_id.
  - apply market_values_rel, E.
Qed.

Lemma categoriesToMetrics_ignores_userValue_witness :
  DataMapper.categoriesToMetrics CATEGORIES false
  = DataMapper.categoriesToMetrics
      (View.map_indexes (View.set_user 0) CATEGORIES) false.
Proof.
  apply categoriesToMetrics_ignores_userValue. reflexivity.
Defined.

End Normalisation.

(** ** The errors of [categoriesToMetrics] *)

Section Errors.
Local Open Scope string_scope.

Lemma findCategory_id (cats : list Category.t) (i : string) (c : Category.t) :
  DataMapper.findCategory cats i = Some c -> Category.id c = i.
Proof.
  intros H. apply find_some in H. destruct H as [_ H].
  apply String.eqb_eq, H.
Qed.

Ltac known_index :=
  match goal with
  | |- context [DataMapper.lookupIndex ?c ?i] =>
      destruct (DataMapper.lookupIndex c i);
      cbn [bind negb List.filter map app DataMapper.getValue];
      [|reflexivity]
  end.

(** C7, as the code has it: a payload that lacks one of the five
    categories fails with the error "Missing required categories", which
    names no category; a payload with the five categories that lacks a
    sub-indicator fails with an error that names the first sub-indicator
    missing, in the order of the schema, and its category; and a payload
    that lacks neither is normalised.  No missing entry is given a
    default. *)
Theorem categoriesToMetrics_errors (cats : list Category.t) (u : bool) :
  match View.missing_categories cats, View.missing_indexes cats with
  | _ :: _, _ =>
      DataMapper.categoriesToMetrics cats u
      = Throw "Missing required categories"
  | [], (c, i) :: _ =>
      DataMapper.categoriesToMetrics cats u
      = Throw ("Index " ++ i ++ " not found in category " ++ c)
  | [], [] =>
      is_ok (DataMapper.categoriesToMetrics cats u) = true
  end.
Proof.
  unfold DataMapper.categoriesToMetrics, View.missing_categories,
    View.missing_indexes, View.has_category.
  cbn [View.SCHEMA map fst List.filter flat_map].
  destruct (DataMapper.findCategory cats "valuation") as [c1|] eqn:E1;
    destruct (DataMapper.findCategory cats "sentiment") as [c2|] eqn:E2;
    destruct (DataMapper.findCategory cats "positioning") as [c3|] eqn:E3;
    destruct (DataMapper.findCategory cats "macro") as [c4|] eqn:E4;
    destruct (DataMapper.findCategory cats "fundamentals") as [c5|] eqn:E5;
    cbn [negb]; try reflexivity.
  apply findCategory_id in E1, E2, E3, E4, E5.
  cbv zeta. unfold DataMapper.valueOf, DataMapper.findIndex, View.has_index.
  rewrite E1, E2, E3, E4, E5.
  cbn [app].
  do 22 known_index.
  reflexivity.
Qed.

(** A payload that lacks two sub-indicators fails on the first of the
    schema, whichever comes first in the payload. *)
Example missing_index_named :
  let cats :=
    View.without_index "vix" (View.without_index "search-trends" CATEGORIES) in
  View.missing_indexes cats = [("sentiment", "search-trends"); ("macro", "vix")]
  /\ DataMapper.categoriesToMetrics cats true
     = Throw "Index search-trends not found in category sentiment"
  /\ DataMapper.categoriesToMetrics (rev cats) true
     = Throw "Index search-trends not found in category sentiment".
Proof. repeat split; reflexivity. Qed.

(** C7, refuted as stated: the payloads without the valuation category
    and without the sentiment category fail with the same error, which
    names neither. *)
Lemma missing_category_not_named :
  DataMapper.categoriesToMetrics (View.without "valuation" CATEGORIES) false
  = Throw "Missing required categories"
  /\ DataMapper.categoriesToMetrics (View.without "sentiment" CATEGORIES) false
     = Throw "Missing required categories"
  /\ View.contains "valuation" "Missing required categories" = false
  /\ View.contains "sentiment" "Missing required categories" = false.
Proof. repeat split; reflexivity. Qed.

End Errors.

(** ** The bubble state store *)

Section Store.
Import Backend.
Context `{Collaborators}.

Lemma upsert_other (s : store) (A B : string) (metrics : MetricsData) :
  A <> B -> fst (upsert s A metrics) !! B = s !! B.
Proof.
  intros Hne. unfold upsert. destruct (assess metrics); cbn; [|reflexivity].
  apply lookup_insert_ne, Hne.
Qed.

(** Re-initialization leaves the conversation log of the bubble itself
    untouched. *)
Lemma upsert_keeps_log (s : store) (A c : string) (metrics : MetricsData) :
  history (fst (upsert s A metrics)) A c = history s A c.
Proof.
  unfold upsert, history. destruct (assess metrics); cbn; [|reflexivity].
  rewrite lookup_insert_eq. cbn. destruct (s !! A); reflexivity.
Qed.

Lemma initializeBubble_backend (w : Client.world) (A : string)
  (metrics : MetricsData) :
  Client.backend (Client.initializeBubble w A metrics)
  = fst (upsert (Client.backend w) A metrics).
Proof.
  unfold Client.initializeBubble.
  destruct (upsert (Client.backend w) A metrics) as [s' [data|e]]; reflexivity.
Qed.

(** Initialization from the categories of a page reaches no bubble but
    its own either. *)
Lemma initializeFromCategories_other (w w' : Client.world) (A B : string)
  (categories : list Category.t) (useUserValues : bool) :
  A <> B ->
  Client.initializeFromCategories w A categories useUserValues = Ok w' ->
  Client.backend w' !! B = Client.backend w !! B
  /\ Client.queryCache w' !! B = Client.queryCache w !! B.
Proof.
  intros Hne. unfold Client.initializeFromCategories.
  destruct (DataMapper.categoriesToMetrics categories useUserValues)
    as [metrics|]; cbn; [|discriminate].
  intros E. injection E as <-. split.
  - rewrite initializeBubble_backend. apply upsert_other, Hne.
  - unfold Client.initializeBubble.
    destruct (upsert (Client.backend w) A metrics) as [s' [data|e]]; cbn;
      [|reflexivity].
    apply lookup_insert_ne, Hne.
Qed.

(** C8: initializing the bubble [A] leaves another bubble [B] as it was:
    its record in the store, and with it its snapshot and each of its
    conversation logs, and its entry in the query cache of the page. *)
Theorem initialize_isolation (w : Client.world) (A B : string)
  (metrics : MetricsData) :
  A <> B ->
  let w' := Client.initializeBubble w A metrics in
  Client.backend w' !! B = Client.backend w !! B
  /\ get (Client.backend w') B = get (Client.backend w) B
  /\ (forall c : string,
        history (Client.backend w') B c = history (Client.backend w) B c)
  /\ Client.queryCache w' !! B = Client.queryCache w !! B.
Proof.
  intros Hne w'.
  assert (E : Client.backend w' !! B = Client.backend w !! B).
  { unfold w'. rewrite initializeBubble_backend. apply upsert_other, Hne. }
  split; [exact E|].
  split; [unfold get; now rewrite E|].
  split; [intros c; unfold history; now rewrite E|].
  unfold w', Client.initializeBubble.
  destruct (upsert (Client.backend w) A metrics) as [s' [data|e]]; cbn;
    [|reflexivity].
  apply lookup_insert_ne, Hne.
Qed.

End Store.

(** ** Conversations *)

Section Conversations.
Import Backend.
Context `{Collaborators}.

Lemma voice_inv (s : store) (b audio : string) (cid : option string)
  (s' : store) (r : ConversationResponse) :
  voiceConversation s b audio cid = Done (s', r) ->
  exists bub : Bubble,
    s !! b = Some bub
    /\ conversation_id r
       = match cid with Some c => c | None => mint bub end
    /\ s' = <[b := {| indicators := indicators bub;
                      snapshot := snapshot bub;
                      conversations :=
                        <[conversation_id r :=
                            default [] (conversations bub !! conversation_id r)
                            ++ [turn_of r]]> (conversations bub) |}]> s.
Proof.
  unfold voiceConversation, appendTurn.
  destruct (transcribe audio) as [text|]; [|discriminate].
  destruct (s !! b) as [bub|] eqn:Eb; [|discriminate].
  destruct (generate _) as [reply|]; [|discriminate].
  destruct (synthesize reply) as [speech|]; [|discriminate].
  intros E. injection E as <- <-. exists bub. cbn. auto.
Qed.

(** A successful call appends its turn to the log of its conversation and
    changes no other log. *)
Lemma voice_history (s : store) (b audio : string) (cid : option string)
  (s' : store) (r : ConversationResponse) :
  voiceConversation s b audio cid = Done (s', r) ->
  history s' b (conversation_id r)
  = history s b (conversation_id r) ++ [turn_of r]
  /\ (forall c, c <> conversation_id r -> history s' b c = history s b c).
Proof.
  intros E. destruct (voice_inv _ _ _ _ _ _ E) as (bub & Eb & _ & ->).
  unfold history. rewrite lookup_insert_eq, Eb. cbn. split.
  - now rewrite lookup_insert_eq.
  - intros c Hc. now rewrite lookup_insert_ne.
Qed.

Lemma voice_supplied (s : store) (b audio c : string)
  (s' : store) (r : ConversationResponse) :
  voiceConversation s b audio (Some c) = Done (s', r) -> conversation_id r = c.
Proof.
  intros E. destruct (voice_inv _ _ _ _ _ _ E) as (bub & _ & Ec & _).
  exact Ec.
Qed.

Lemma voice_twice (s : store) (b c a1 a2 : string)
  (s1 s2 : store) (r1 r2 : ConversationResponse) :
  voiceConversation s b a1 (Some c) = Done (s1, r1) ->
  voiceConversation s1 b a2 (Some c) = Done (s2, r2) ->
  history s2 b c = history s b c ++ [turn_of r1; turn_of r2].
Proof.
  intros E1 E2.
  pose proof (voice_supplied _ _ _ _ _ _ E1) as C1.
  pose proof (voice_supplied _ _ _ _ _ _ E2) as C2.
  destruct (voice_history _ _ _ _ _ _ E1) as [H1 _].
  destruct (voice_history _ _ _ _ _ _ E2) as [H2 _].
  rewrite C1 in H1. rewrite C2 in H2. rewrite H2, H1, <- app_assoc.
  reflexivity.
Qed.

(** A minted identifier names no conversation of the bubble yet. *)
Lemma voice_minted (s : store) (b audio : string)
  (s' : store) (r : ConversationResponse) :
  voiceConversation s b audio None = Done (s', r) ->
  history s b (conversation_id r) = []
  /\ forall bub, s !! b = Some bub -> conversation_id r ∉ dom (conversations bub).
Proof.
  intros E. destruct (voice_inv _ _ _ _ _ _ E) as (bub & Eb & Ec & _).
  assert (F : conversation_id r ∉ dom (conversations bub)).
  { rewrite Ec. unfold mint. apply is_fresh. }
  split.
  - unfold history. rewrite Eb. apply not_elem_of_dom in F. now rewrite F.
  - intros bub' Eb'. rewrite Eb in Eb'. now injection Eb' as <-.
Qed.

Lemma handle_logged (sv : server) (rq : request) :
  logged sv -> logged (handle sv rq).
Proof.
  intros L b c Hin. destruct rq as [A metrics | A audio cid]; cbn in *.
  - destruct (L b c Hin) as (bub & Eb & Hc).
    unfold upsert. destruct (assess metrics); cbn; [|eauto].
    destruct (decide (A = b)) as [->|Hne].
    + rewrite lookup_insert_eq, Eb. eauto.
    + rewrite lookup_insert_ne by exact Hne. eauto.
  - destruct (voiceConversation (bubbles sv) A audio cid) as [[s' r]|e] eqn:E;
      [|apply L, Hin].
    destruct (voice_inv _ _ _ _ _ _ E) as (bub & Eb & _ & ->).
    cbn in *. destruct Hin as [Hin | Hin].
    + injection Hin as <- <-. rewrite lookup_insert_eq. eexists. split; [reflexivity|].
      cbn. apply elem_of_dom. rewrite lookup_insert_eq. eauto.
    + destruct (L b c Hin) as (bub' & Eb' & Hc).
      destruct (decide (A = b)) as [->|Hne].
      * rewrite lookup_insert_eq. eexists. split; [reflexivity|]. cbn.
        rewrite Eb in Eb'. injection Eb' as <-.
        rewrite dom_insert. apply elem_of_union. now right.
      * rewrite lookup_insert_ne by exact Hne. eauto.
Qed.

Lemma serve_logged (requests : list request) : logged (serve requests).
Proof.
  unfold serve.
  assert (L : logged boot) by (intros b c []).
  revert L. generalize boot.
  induction requests as [|rq requests IH]; intros sv L; cbn; [exact L|].
  apply IH, handle_logged, L.
Qed.


End Conversations.

(** ** The store and the orchestrator on concrete inputs *)

Section Runs.
Import Backend.

Lemma initialize_isolation_witness :
  let w := {| Client.backend := Demo.two_bubbles; Client.queryCache := ∅ |} in
  let w' := @Client.initializeBubble Demo.collaborators w "market"
              (Demo.constant_metrics 50) in
  Client.backend w' !! "personal_user" = Client.backend w !! "personal_user"
  /\ get (Client.backend w') "personal_user"
     = get (Client.backend w) "personal_user"
  /\ (forall c : string,
        history (Client.backend w') "personal_user" c
        = history (Client.backend w) "personal_user" c)
  /\ Client.queryCache w' !! "personal_user"
     = Client.queryCache w !! "personal_user".
Proof.
  intros w.
  apply (@initialize_isolation Demo.collaborators w "market" "personal_user"
           (Demo.constant_metrics 50)).
  discriminate.
Defined.


End Runs.

(** * Further properties of the pages and components *)

(** ** The edits of the user analysis page *)

Section Edits.
Local Open Scope string_scope.

Lemma find_map_same {A : Type} (p : A -> bool) (h : A -> A) (l : list A) :
  (forall x, p (h x) = p x) ->
  List.find p (map h l) = option_map h (List.find p l).
Proof.
  intros Hp. induction l as [|x l IH]; cbn; [reflexivity|].
  rewrite Hp. destruct (p x); [reflexivity|exact IH].
Qed.


End Edits.


Section MarketFrame.
Local Open Scope string_scope.

Lemma fold_left_rel {A B : Type} (R : B -> B -> Prop) (f g : A -> B -> A)
  (l l' : list B) (a : A) :
  (forall acc x y, R x y -> f acc x = g acc y) ->
  Forall2 R l l' -> fold_left f l a = fold_left g l' a.
Proof.
  intros Hfg H. revert a. induction H as [|x y l l' Hxy _ IH]; intros a;
    cbn; [reflexivity|].
  rewrite (Hfg a x y Hxy). apply IH.
Qed.

Lemma map_eq_Forall2 {A B : Type} (f : A -> B) (l l' : list A) :
  map f l = map f l' -> Forall2 (fun x y => f x = f y) l l'.
Proof.
  revert l'. induction l as [|x l IH]; intros [|y l'] E; cbn in E;
    try discriminate; constructor.
  - now injection E.
  - apply IH. now injection E.
Qed.

Lemma marketPart_same cats cats' :
  Frame.marketPart cats = Frame.marketPart cats' ->
  Forall2 (fun c c' => Frame.marketCategory c = Frame.marketCategory c')
    cats cats'.
Proof. apply map_eq_Forall2. Qed.

Lemma marketPart_metrics cats cats' :
  Frame.marketPart cats = Frame.marketPart cats' ->
  DataMapper.categoriesToMetrics cats false
  = DataMapper.categoriesToMetrics cats' false.
Proof.
  intros E. symmetry.
  rewrite (categoriesToMetrics_rel (fun q => q) false false cats cats').
  - apply map_metrics_id.
  - apply marketPart_same in E.
    eapply Forall2_impl; [exact E|]. cbn.
    intros c c' Ec. unfold Frame.marketCategory in Ec.
    injection Ec as Eid _ Eix. split; [exact Eid|].
    apply map_eq_Forall2 in Eix.
    eapply Forall2_impl; [exact Eix|]. cbn.
    intros i i' Ei. unfold Frame.marketIndex in Ei.
    injection Ei as Ei Ev _. split; [exact Ei|]. cbn. now rewrite Ev.
Qed.

Lemma marketPart_indexes c c' :
  Frame.marketCategory c = Frame.marketCategory c' ->
  Forall2 (fun i i' => Frame.marketIndex i = Frame.marketIndex i')
    (Category.indexes c) (Category.indexes c')
  /\ Category.marketWeight c = Category.marketWeight c'.
Proof.
  unfold Frame.marketCategory. intros E. injection E as _ Ew Eix.
  split; [apply map_eq_Forall2, Eix|exact Ew].
Qed.

Lemma marketPart_clientScore cats cats' :
  Frame.marketPart cats = Frame.marketPart cats' ->
  DataMapper.calculateClientRiskScore cats false
  = DataMapper.calculateClientRiskScore cats' false.
Proof.
  intros E. apply marketPart_same in E.
  unfold DataMapper.calculateClientRiskScore.
  assert (Hstep : forall acc c c',
             Frame.marketCategory c = Frame.marketCategory c' ->
             DataMapper.categoryStep false acc c
             = DataMapper.categoryStep false acc c').
  { intros [ts tw] c c' Ec. destruct (marketPart_indexes c c' Ec) as [Eix Ew].
    unfold DataMapper.categoryStep, DataMapper.categoryScoreOf,
      DataMapper.categoryTotals.
    rewrite Ew.
    assert (Hin : forall acc i i',
               Frame.marketIndex i = Frame.marketIndex i' ->
               DataMapper.indexStep false acc i
               = DataMapper.indexStep false acc i').
    { intros [cs ciw] i i' Ei. unfold Frame.marketIndex in Ei.
      injection Ei as _ Ev Ewi. unfold DataMapper.indexStep.
      now rewrite Ev, Ewi. }
    rewrite (fold_left_rel _ _ _ _ _ (JS.Num 0, JS.Num 0) Hin Eix).
    reflexivity. }
  rewrite (fold_left_rel _ _ _ _ _ (JS.Num 0, JS.Num 0) Hstep E).
  reflexivity.
Qed.

Lemma marketPart_consensusScore cats cats' :
  Frame.marketPart cats = Frame.marketPart cats' ->
  MarketConsensus.calculateScore cats = MarketConsensus.calculateScore cats'.
Proof.
  intros E. apply marketPart_same in E.
  unfold MarketConsensus.calculateScore.
  assert (Hstep : forall acc c c',
             Frame.marketCategory c = Frame.marketCategory c' ->
             MarketConsensus.step acc c = MarketConsensus.step acc c').
  { intros [ts tw] c c' Ec. destruct (marketPart_indexes c c' Ec) as [Eix Ew].
    unfold MarketConsensus.step, MarketConsensus.categoryScore, JS.length.
    rewrite Ew, (Forall2_length _ _ _ Eix).
    assert (Hin : forall (s : JS.number) i i',
               Frame.marketIndex i = Frame.marketIndex i' ->
               JS.add s (JS.Num (Index.value i))
               = JS.add s (JS.Num (Index.value i'))).
    { intros s i i' Ei. unfold Frame.marketIndex in Ei.
      injection Ei as _ Ev _. now rewrite Ev. }
    rewrite (fold_left_rel _ _ _ _ _ (JS.Num 0) Hin Eix).
    reflexivity. }
  rewrite (fold_left_rel _ _ _ _ _ (JS.Num 0, JS.Num 0) Hstep E).
  reflexivity.
Qed.

Lemma apply_marketPart cats e :
  Frame.marketPart (UserEdits.apply cats e) = Frame.marketPart cats.
Proof.
  unfold Frame.marketPart, UserEdits.apply,
    UserEdits.handleCategoryWeightChange, UserEdits.handleIndexValueChange.
  destruct e as [c w | c i v]; rewrite map_map; apply map_ext; intros cat.
  - destruct (String.eqb (Category.id cat) c); reflexivity.
  - destruct (String.eqb (Category.id cat) c); [|reflexivity].
    unfold Frame.marketCategory. cbn [Category.id Category.indexes
                                        Category.marketWeight].
    f_equal. rewrite map_map. apply map_ext. intros x.
    destruct (String.eqb (Index.id x) i); reflexivity.
Qed.

Lemma applyAll_marketPart edits cats :
  Frame.marketPart (UserEdits.applyAll edits cats) = Frame.marketPart cats.
Proof.
  unfold UserEdits.applyAll. revert cats.
  induction edits as [|e edits IH]; intros cats; cbn; [reflexivity|].
  rewrite IH. apply apply_marketPart.
Qed.

(** X2: no sequence of weight and value edits on the user analysis page
    changes what the market mode computes: the metrics of
    [categoriesToMetrics], the score of [calculateClientRiskScore] and the
    score of the market consensus page are those of the payload before
    the edits. *)
Theorem edits_keep_market (edits : list UserEdits.edit) (cats : list Category.t) :
  DataMapper.categoriesToMetrics (UserEdits.applyAll edits cats) false
  = DataMapper.categoriesToMetrics cats false
  /\ DataMapper.calculateClientRiskScore (UserEdits.applyAll edits cats) false
     = DataMapper.calculateClientRiskScore cats false
  /\ MarketConsensus.calculateScore (UserEdits.applyAll edits cats)
     = MarketConsensus.calculateScore cats.
Proof.
  pose proof (applyAll_marketPart edits cats) as E.
  split; [apply marketPart_metrics, E|].
  split; [apply marketPart_clientScore, E|apply marketPart_consensusScore, E].
Qed.

(** X3: a change of a category weight changes nothing of what
    [categoriesToMetrics] returns, in either mode: the metrics sent to the
    back end do not carry the weights of the user. *)
Theorem weight_change_not_in_metrics (cats : list Category.t) (c : string)
  (w : Q) (u : bool) :
  DataMapper.categoriesToMetrics
    (UserEdits.handleCategoryWeightChange cats c w) u
  = DataMapper.categoriesToMetrics cats u.
Proof.
  rewrite (categoriesToMetrics_rel (fun q => q) u u cats).
  - apply map_metrics_id.
  - unfold UserEdits.handleCategoryWeightChange.
    induction cats as [|cat cats IH]; cbn; constructor; [|exact IH].
    assert (Hix : Forall2 (View.index_rel (fun q => q) u u)
                    (Category.indexes cat) (Category.indexes cat)).
    { induction (Category.indexes cat); constructor; [|assumption].
      split; reflexivity. }
    destruct (String.eqb (Category.id cat) c); split; try reflexivity;
      exact Hix.
Qed.

Lemma reset_consensus (cats : list Category.t) :
  UserEdits.consensusOf cats
  = UserAnalysis.calculateScore (map UserEdits.resetCategory cats).
Proof.
  unfold UserAnalysis.calculateScore, UserEdits.consensusOf, JS.length.
  rewrite !length_map. f_equal. f_equal. symmetry.
  apply (fold_left_rel
           (fun x y => exists cat, x = UserEdits.resetCategory cat
                                   /\ Category.indexes y = Category.indexes x
                                   /\ Category.marketWeight y
                                      = Category.userWeight x)).
  - intros acc x y (cat & -> & Eix & Ew).
    unfold UserAnalysis.step, UserAnalysis.categoryScore, JS.length.
    rewrite Eix, Ew. do 3 f_equal.
    cbn [UserEdits.resetCategory Category.indexes].
    generalize (JS.Num 0).
    induction (Category.indexes cat) as [|i l IHl]; intros b;
      [reflexivity|].
    cbn [map fold_left]. rewrite IHl. reflexivity.
  - induction cats as [|cat cats IH]; cbn [map]; constructor; [|exact IH].
    exists cat. repeat split.
Qed.

(** X4: after a reset the user mode is the market mode: on the reset of
    any categories, [categoriesToMetrics] with user values returns what it
    returns for the categories with market values, and the user score of
    the page is the "Market Consensus" figure it shows. *)
Theorem reset_is_market (cats : list Category.t) :
  DataMapper.categoriesToMetrics (map UserEdits.resetCategory cats) true
  = DataMapper.categoriesToMetrics cats false
  /\ UserAnalysis.calculateScore (map UserEdits.resetCategory cats)
     = UserEdits.consensusOf cats.
Proof.
  split.
  - rewrite (categoriesToMetrics_rel (fun q => q) false true cats).
    + apply map_metrics_id.
    + induction cats as [|cat cats IH]; cbn; constructor; [|exact IH].
      split; [reflexivity|]. cbn.
      induction (Category.indexes cat); cbn; constructor; [|assumption].
      split; reflexivity.
  - symmetry. apply reset_consensus.
Qed.

End MarketFrame.


(** ** The scores of the pages *)

Ltac means_simpl :=
  unfold Mean.marketMeans, Mean.userMeans;
  cbn [map Spec.sum_weights Spec.sum_weighted fst snd].

Section Means.
Local Open Scope Q_scope.

Lemma count_pos {A : Type} (l : list A) : l <> [] -> 0 < Mean.count l.
Proof.
  intros Hl. unfold Mean.count. destruct l; [congruence|].
  change 0 with (inject_Z 0). rewrite <- Zlt_Qlt. cbn [List.length]. lia.
Qed.

Lemma count_cons {A : Type} (x : A) (l : list A) :
  Mean.count (x :: l) == Mean.count l + 1.
Proof.
  unfold Mean.count. cbn [List.length].
  rewrite Nat2Z.inj_succ. unfold Z.succ. rewrite inject_Z_plus. reflexivity.
Qed.

Lemma total_bounds {A : Type} (f : A -> Q) (lo hi : Q) (l : list A) :
  Forall (fun x => lo <= f x /\ f x <= hi) l ->
  Mean.count l * lo <= Mean.total f l /\ Mean.total f l <= Mean.count l * hi.
Proof.
  induction 1 as [|x l [H1 H2] _ [IH1 IH2]].
  - unfold Mean.count. cbn [List.length Mean.total].
    change (inject_Z (Z.of_nat 0)) with 0. split; lra.
  - rewrite count_cons. cbn [Mean.total].
    set (n := Mean.count l) in *. split; nra.
Qed.

Lemma meanOf_bounds {A : Type} (f : A -> Q) (lo hi : Q) (l : list A) :
  l <> [] -> Forall (fun x => lo <= f x /\ f x <= hi) l ->
  lo <= Mean.meanOf f l /\ Mean.meanOf f l <= hi.
Proof.
  intros Hne H. destruct (total_bounds f lo hi l H) as [B1 B2].
  pose proof (count_pos l Hne) as Hn. unfold Mean.meanOf.
  apply div_bounds; [exact Hn|lra|lra].
Qed.

(** The [reduce] of the pages is the sum of the values. *)
Lemma reduce_total {A : Type} (f : A -> Q) (l : list A) (a : Q) :
  exists q,
    fold_left (fun sum x => JS.add sum (JS.Num (f x))) l (JS.Num a) = JS.Num q
    /\ q == a + Mean.total f l.
Proof.
  revert a. induction l as [|x l IH]; intros a.
  - exists a. split; [reflexivity|]. cbn [Mean.total]. ring.
  - destruct (IH (a + f x)) as (q & E & Hq). exists q. split; [exact E|].
    rewrite Hq. cbn [Mean.total]. ring.
Qed.

(** The mean of the pages: NaN for no values, the mean otherwise. *)
Lemma mean_cases {A : Type} (f : A -> Q) (l : list A) :
  (l = [] /\
   JS.div (fold_left (fun sum x => JS.add sum (JS.Num (f x))) l (JS.Num 0))
     (JS.length l) = JS.NaN)
  \/ (l <> [] /\
      exists q,
        JS.div (fold_left (fun sum x => JS.add sum (JS.Num (f x))) l (JS.Num 0))
          (JS.length l) = JS.Num q
        /\ q == Mean.meanOf f l).
Proof.
  destruct l as [|x l]; [left; split; reflexivity|right].
  split; [discriminate|].
  destruct (reduce_total f (x :: l) 0) as (q & E & Hq).
  pose proof (count_pos (x :: l) ltac:(discriminate)) as Hn.
  rewrite E. unfold JS.length. fold (Mean.count (x :: l)).
  rewrite div_Num by exact Hn.
  eexists. split; [reflexivity|]. unfold Mean.meanOf. rewrite Hq.
  rewrite Qplus_0_l. reflexivity.
Qed.

Lemma empty_dec (c : Category.t) :
  {Category.indexes c = nil} + {Category.indexes c <> nil}.
Proof. destruct (Category.indexes c); [left; reflexivity|right; discriminate]. Qed.

Lemma Exists_or_nonempty (cats : list Category.t) :
  Exists (fun c => Category.indexes c = []) cats \/ Frame.nonempty cats.
Proof.
  induction cats as [|c cats [IH | IH]].
  - right. constructor.
  - left. now constructor 2.
  - destruct (empty_dec c) as [E | E]; [left; now constructor 1|].
    right. now constructor.
Qed.

Lemma nonempty_not_Exists (cats : list Category.t) :
  Frame.nonempty cats ->
  ~ Exists (fun c => Category.indexes c = []) cats.
Proof.
  intros H E. induction H as [|c cats Hc _ IH]; inversion E; subst; auto.
Qed.

(** The loop of the market consensus page: the weights always add up, and
    the score is NaN from the first category without sub-indicators on. *)
Lemma MarketConsensus_fold (cats : list Category.t) (a b : Q) :
  (exists w,
      snd (fold_left MarketConsensus.step cats (JS.Num a, JS.Num b)) = JS.Num w
      /\ w == b + Spec.sum_weights (Mean.marketMeans cats))
  /\ (Exists (fun c => Category.indexes c = []) cats ->
      fst (fold_left MarketConsensus.step cats (JS.Num a, JS.Num b)) = JS.NaN)
  /\ (Frame.nonempty cats ->
      exists q,
        fst (fold_left MarketConsensus.step cats (JS.Num a, JS.Num b))
        = JS.Num q
        /\ q == a + Spec.sum_weighted (Mean.marketMeans cats)).
Proof.
  assert (Hnan : forall l w,
             exists w',
               fold_left MarketConsensus.step l (JS.NaN, JS.Num w)
               = (JS.NaN, JS.Num w')
               /\ w' == w + Spec.sum_weights (Mean.marketMeans l)).
  { induction l as [|c l IH]; intros w.
    - exists w. split; [reflexivity|]. means_simpl. ring.
    - cbn [fold_left]. unfold MarketConsensus.step at 2.
      replace (JS.add JS.NaN _) with JS.NaN by reflexivity.
      cbn [JS.add].
      destruct (IH (w + Category.marketWeight c)) as (w' & E & Hw).
      exists w'. split; [exact E|]. rewrite Hw. means_simpl. ring. }
  revert a b. induction cats as [|c cats IH]; intros a b.
  - cbn [fold_left fst snd]. split; [|split].
    + exists b. split; [reflexivity|]. means_simpl. ring.
    + intros E. inversion E.
    + intros _. exists a. split; [reflexivity|]. means_simpl. ring.
  - cbn [fold_left]. unfold MarketConsensus.step at 2 4 6.
    unfold MarketConsensus.categoryScore.
    destruct (mean_cases Index.value (Category.indexes c))
      as [[Hnil E] | [Hne (m & E & Hm)]]; rewrite E.
    + cbn [JS.mul JS.add].
      destruct (Hnan cats (b + Category.marketWeight c)) as (w' & F & Hw).
      rewrite F. cbn [fst snd]. split; [|split].
      * exists w'. split; [reflexivity|]. rewrite Hw. means_simpl. ring.
      * reflexivity.
      * intros Hn. inversion Hn; subst. contradiction.
    + cbn [JS.mul JS.add].
      destruct (IH (a + m * Category.marketWeight c)
                   (b + Category.marketWeight c)) as ((w & I1 & Hw) & I2 & I3).
      split; [|split].
      * exists w. split; [exact I1|]. rewrite Hw. means_simpl. ring.
      * intros Ex. inversion Ex; subst; [contradiction|]. now apply I2.
      * intros Hn. inversion Hn; subst.
        destruct (I3 ltac:(assumption)) as (q & Eq & Hq).
        exists q. split; [exact Eq|]. rewrite Hq, Hm.
        means_simpl. ring.
Qed.

Lemma marketWeightSum_means (cats : list Category.t) :
  Frame.marketWeightSum cats == Spec.sum_weights (Mean.marketMeans cats).
Proof.
  induction cats as [|c cats IH]; [reflexivity|].
  cbn [Frame.marketWeightSum]. rewrite IH. means_simpl. reflexivity.
Qed.



End Means.


Section Agreement.
Local Open Scope Q_scope.

Lemma uniform_sums (w : Q) (l : list Index.t) (u : bool) :
  Forall (fun i => View.indexWeight u i == w) l ->
  Spec.sum_weighted (View.pairs_of u l)
  == w * Mean.total (DataMapper.getValue u) l
  /\ Spec.sum_weights (View.pairs_of u l) == Mean.count l * w.
Proof.
  induction 1 as [|i l Hi _ [IH1 IH2]].
  - unfold Mean.count. cbn. split; ring.
  - rewrite count_cons. unfold View.pairs_of.
    cbn [map Spec.sum_weighted Spec.sum_weights Mean.total].
    fold (View.pairs_of u l). rewrite IH1, IH2, Hi. split; ring.
Qed.

Lemma uniform_effective (c : Category.t) :
  View.valid_category c = true ->
  (exists w, Forall (fun i => Index.marketWeight i == w) (Category.indexes c)) ->
  exists w', 0 < w'
    /\ Forall (fun i => View.indexWeight false i == w') (Category.indexes c).
Proof.
  intros Hv [w Hw].
  destruct (Qeq_bool w 0) eqn:Z.
  - apply Qeq_bool_iff in Z. exists 1. split; [lra|].
    eapply Forall_impl; [exact Hw|]. cbn. intros i Hi.
    unfold View.indexWeight, JS.or_one.
    destruct (Qeq_bool (Index.marketWeight i) 0) eqn:Zi; [reflexivity|].
    apply Qeq_bool_neq in Zi. exfalso. apply Zi. lra.
  - apply Qeq_bool_neq in Z.
    destruct (Category.indexes c) as [|i0 l] eqn:El.
    + exists 1. split; [lra|constructor].
    + exists w. split.
      * pose proof (valid_pairs false c Hv) as Hp. rewrite El in Hp.
        inversion Hp as [|? ? [_ Hpos] _]; subst. cbn in Hpos.
        inversion Hw as [|? ? Hi0 _]; subst.
        unfold View.indexWeight, JS.or_one in Hpos.
        destruct (Qeq_bool (Index.marketWeight i0) 0) eqn:Zi.
        -- apply Qeq_bool_iff in Zi. exfalso. apply Z. lra.
        -- lra.
      * eapply Forall_impl; [exact Hw|]. cbn. intros i Hi.
        unfold View.indexWeight, JS.or_one.
        destruct (Qeq_bool (Index.marketWeight i) 0) eqn:Zi; [|exact Hi].
        apply Qeq_bool_iff in Zi. exfalso. apply Z. lra.
Qed.

(** With uniform weights the guarded weighted average of
    [calculateClientRiskScore] is the plain mean. *)
Lemma uniform_category_mean (c : Category.t) :
  View.valid_category c = true ->
  Category.indexes c <> [] ->
  (exists w, Forall (fun i => Index.marketWeight i == w) (Category.indexes c)) ->
  Exact.categoryScoreOf false c == Mean.meanOf Index.value (Category.indexes c).
Proof.
  intros Hv Hne Hu.
  destruct (valid_categoryScoreOf false c Hv) as [E _]. rewrite E.
  destruct (uniform_effective c Hv Hu) as (w' & Hpos & Hw').
  destruct (uniform_sums w' (Category.indexes c) false Hw') as [S1 S2].
  pose proof (count_pos (Category.indexes c) Hne) as Hn.
  unfold Spec.category_score, Mean.meanOf.
  destruct (Qeq_bool _ 0) eqn:Z.
  - apply Qeq_bool_iff in Z. rewrite S2 in Z. nra.
  - rewrite S1, S2.
    change (DataMapper.getValue false) with Index.value.
    field. split; lra.
Qed.



End Agreement.


Section UserScore.
Local Open Scope Q_scope.

(** The loop of the user analysis page: NaN from the first category
    without sub-indicators on, and otherwise the sum of the category means
    scaled by weight / 100. *)
Lemma UserAnalysis_fold (cats : list Category.t) (a : Q) :
  (Exists (fun c => Category.indexes c = []) cats ->
   fold_left UserAnalysis.step cats (JS.Num a) = JS.NaN)
  /\ (Frame.nonempty cats ->
      exists q,
        fold_left UserAnalysis.step cats (JS.Num a) = JS.Num q
        /\ q == a + Spec.sum_weighted (Mean.userMeans cats)).
Proof.
  assert (Hnan : forall l, fold_left UserAnalysis.step l JS.NaN = JS.NaN).
  { induction l as [|c l IH]; [reflexivity|]. cbn [fold_left].
    unfold UserAnalysis.step at 2. cbn [JS.add]. exact IH. }
  revert a. induction cats as [|c cats IH]; intros a.
  - split.
    + intros E. inversion E.
    + intros _. exists a. split; [reflexivity|]. means_simpl. ring.
  - cbn [fold_left]. unfold UserAnalysis.step at 2 4.
    unfold UserAnalysis.categoryScore.
    rewrite (div_Num (Category.userWeight c) 100) by lra.
    destruct (mean_cases UserAnalysis.indexValue (Category.indexes c))
      as [[Hnil E] | [Hne (m & E & Hm)]]; rewrite E.
    + cbn [JS.mul JS.add]. rewrite Hnan. split; [reflexivity|].
      intros Hn. inversion Hn; subst. contradiction.
    + cbn [JS.mul JS.add].
      destruct (IH (a + m * (Category.userWeight c / 100))) as (I2 & I3).
      split.
      * intros Ex. inversion Ex; subst; [contradiction|]. now apply I2.
      * intros Hn. inversion Hn; subst.
        destruct (I3 ltac:(assumption)) as (q & Eq & Hq).
        exists q. split; [exact Eq|]. rewrite Hq, Hm. means_simpl. ring.
Qed.


Lemma valid_userMeans (cats : list Category.t) :
  View.valid cats = true -> Frame.nonempty cats ->
  Forall (fun p => 0 <= fst p * snd p /\ fst p * snd p <= 100)
    (Mean.userMeans cats).
Proof.
  unfold View.valid. rewrite forallb_forall. intros Hv Hne.
  unfold Mean.userMeans. apply List.Forall_forall. intros p Hp.
  apply in_map_iff in Hp. destruct Hp as [c [<- Hc]]. cbn [fst snd].
  specialize (Hv c Hc). unfold Frame.nonempty in Hne.
  rewrite List.Forall_forall in Hne. specialize (Hne c Hc).
  pose proof (valid_pairs true c Hv) as Hp.
  unfold View.valid_category in Hv.
  rewrite !andb_true_iff, !in_range_spec in Hv. destruct Hv as [[Hu _] _].
  assert (Hm : 0 <= Mean.meanOf UserAnalysis.indexValue (Category.indexes c)
               /\ Mean.meanOf UserAnalysis.indexValue (Category.indexes c) <= 100).
  { apply meanOf_bounds; [exact Hne|].
    unfold View.pairs_of in Hp. rewrite List.Forall_forall in Hp.
    apply List.Forall_forall. intros i Hi.
    specialize (Hp _ (in_map _ _ i Hi)). cbn [fst] in Hp.
    unfold DataMapper.getValue in Hp. unfold UserAnalysis.indexValue.
    destruct (Index.userValue i); tauto. }
  set (m := Mean.meanOf UserAnalysis.indexValue (Category.indexes c)) in *.
  set (w := Category.userWeight c) in *.
  assert (0 <= w / 100 /\ w / 100 <= 1).
  { split; [apply Qle_shift_div_l; lra|apply Qle_shift_div_r; lra]. }
  split; nra.
Qed.

Lemma sum_weighted_terms (lo hi : Q) (l : list (Q * Q)) :
  Forall (fun p => lo <= fst p * snd p /\ fst p * snd p <= hi) l ->
  Mean.count l * lo <= Spec.sum_weighted l
  /\ Spec.sum_weighted l <= Mean.count l * hi.
Proof.
  induction 1 as [|[v w] l [H1 H2] _ [IH1 IH2]].
  - unfold Mean.count. cbn [List.length Spec.sum_weighted].
    change (inject_Z (Z.of_nat 0)) with 0. split; lra.
  - rewrite count_cons. cbn [Spec.sum_weighted]. cbn [fst snd] in H1, H2.
    set (n := Mean.count l) in *. split; nra.
Qed.



(** X9: the overview page computes the scores of the two other pages: its
    user score is the score of the user analysis page and the total of the
    controls, and its market score is the score of the market consensus
    page, on every list of categories. *)
Theorem pages_agree (cats : list Category.t) :
  IndexPage.calculateScore cats true = UserAnalysis.calculateScore cats
  /\ CategoryControls.getTotalScore cats = UserAnalysis.calculateScore cats
  /\ IndexPage.calculateScore cats false = MarketConsensus.calculateScore cats.
Proof.
  split; [reflexivity|]. split; [reflexivity|].
  unfold IndexPage.calculateScore, MarketConsensus.calculateScore.
  generalize (JS.Num 0, JS.Num 0).
  induction cats as [|c cats IH]; intros acc; [reflexivity|].
  cbn [fold_left]. rewrite <- IH. destruct acc as [ts tw]. reflexivity.
Qed.

End UserScore.


Section Contributions.
Local Open Scope Q_scope.

Lemma getCategoryScore_user (c : Category.t) :
  CategoryControls.getCategoryScore c true = UserAnalysis.categoryScore c.
Proof. reflexivity. Qed.

Lemma sum_of_nums {A : Type} (g : A -> Q) (l : list A) :
  exists q,
    JSOps.sum (map (fun x => JS.Num (g x)) l) = JS.Num q
    /\ q == Mean.total g l.
Proof.
  unfold JSOps.sum.
  assert (F : forall a,
             fold_left JS.add (map (fun x => JS.Num (g x)) l) a
             = fold_left (fun sum x => JS.add sum (JS.Num (g x))) l a).
  { induction l as [|x l IH]; intros a; [reflexivity|].
    cbn [map fold_left]. apply IH. }
  destruct (reduce_total g l 0) as (q & E & Hq). exists q. split.
  - rewrite F. exact E.
  - rewrite Hq. ring.
Qed.

Lemma total_ext {A : Type} (f g : A -> Q) (l : list A) :
  (forall x, In x l -> f x == g x) -> Mean.total f l == Mean.total g l.
Proof.
  induction l as [|x l IH]; intros H; cbn [Mean.total]; [reflexivity|].
  rewrite (H x (or_introl eq_refl)), IH; [reflexivity|].
  intros y Hy. apply H. now right.
Qed.

Lemma total_scale {A : Type} (f : A -> Q) (k : Q) (l : list A) :
  Mean.total (fun x => f x * k) l == Mean.total f l * k.
Proof.
  induction l as [|x l IH]; cbn [Mean.total]; [ring|]. rewrite IH. ring.
Qed.

Lemma total_userMeans (cats : list Category.t) :
  Mean.total
    (fun c => Mean.meanOf UserAnalysis.indexValue (Category.indexes c)
              * Category.userWeight c / 100) cats
  == Spec.sum_weighted (Mean.userMeans cats).
Proof.
  induction cats as [|c cats IH]; [reflexivity|].
  cbn [Mean.total]. rewrite IH. means_simpl. field.
Qed.



End Contributions.


(** ** Weights and values of [calculateClientRiskScore] *)

Section Sensitivity.
Local Open Scope Q_scope.

Lemma scaled_scored (k : Q) (u : bool) (cats : list Category.t) :
  Spec.sum_weighted (Exact.scored_of u (Frame.scaleWeights k cats))
  == k * Spec.sum_weighted (Exact.scored_of u cats)
  /\ Spec.sum_weights (Exact.scored_of u (Frame.scaleWeights k cats))
     == k * Spec.sum_weights (Exact.scored_of u cats).
Proof.
  induction cats as [|c cats [IH1 IH2]].
  - cbn. split; ring.
  - unfold Frame.scaleWeights, Exact.scored_of.
    cbn [map Spec.sum_weighted Spec.sum_weights].
    fold (Frame.scaleWeights k cats).
    fold (Exact.scored_of u (Frame.scaleWeights k cats)).
    fold (Exact.scored_of u cats).
    rewrite IH1, IH2.
    change (Exact.categoryScoreOf u
              {| Category.id := Category.id c;
                 Category.indexes := Category.indexes c;
                 Category.userWeight := k * Category.userWeight c;
                 Category.marketWeight := k * Category.marketWeight c |})
      with (Exact.categoryScoreOf u c).
    unfold View.categoryWeight. cbn [Category.userWeight Category.marketWeight].
    destruct u; split; ring.
Qed.



Lemma raised_sums (l l' : list (Q * Q)) :
  Forall2 (fun p q => fst p <= fst q /\ snd p == snd q /\ 0 <= snd p) l l' ->
  Spec.sum_weighted l <= Spec.sum_weighted l'
  /\ Spec.sum_weights l == Spec.sum_weights l'.
Proof.
  induction 1 as [|[v w] [v' w'] l l' (Hv & Hw & Hn) _ [IH1 IH2]];
    cbn [Spec.sum_weighted Spec.sum_weights]; [split; [lra|reflexivity]|].
  cbn [fst snd] in Hv, Hw, Hn. rewrite IH2, Hw. split; [|reflexivity].
  rewrite <- Hw. nra.
Qed.

Lemma raised_category_score (l l' : list (Q * Q)) :
  Forall2 (fun p q => fst p <= fst q /\ snd p == snd q /\ 0 <= snd p) l l' ->
  Spec.category_score l <= Spec.category_score l'.
Proof.
  intros H. destruct (raised_sums l l' H) as [S1 S2].
  assert (Hn : 0 <= Spec.sum_weights l).
  { apply sum_weights_nonneg. clear -H.
    induction H as [|p q l l' (_ & _ & Hn) _ IH]; constructor; assumption. }
  unfold Spec.category_score.
  destruct (Qeq_bool (Spec.sum_weights l) 0) eqn:Z;
    destruct (Qeq_bool (Spec.sum_weights l') 0) eqn:Z'.
  - lra.
  - apply Qeq_bool_iff in Z. apply Qeq_bool_neq in Z'. exfalso. apply Z'. lra.
  - apply Qeq_bool_iff in Z'. apply Qeq_bool_neq in Z. exfalso. apply Z. lra.
  - apply Qeq_bool_neq in Z.
    assert (Hp : 0 < Spec.sum_weights l).
    { destruct (Qlt_le_dec 0 (Spec.sum_weights l)); [assumption|].
      exfalso. apply Z. lra. }
    rewrite <- S2. unfold Qdiv.
    apply Qmult_le_compat_r; [exact S1|].
    apply Qlt_le_weak, Qinv_lt_0_compat, Hp.
Qed.

Lemma getRiskLevel_monotone (r r' : Q) :
  r <= r' ->
  (Frame.levelRank (DataMapper.getRiskLevel (JS.Num r))
   <= Frame.levelRank (DataMapper.getRiskLevel (JS.Num r')))%nat.
Proof.
  intros H. unfold DataMapper.getRiskLevel, JS.lt.
  destruct (Qlt_le_dec r 33), (Qlt_le_dec r' 33),
           (Qlt_le_dec r 67), (Qlt_le_dec r' 67); cbn; try lia; lra.
Qed.

(** X12: raising values never lowers the score: of two payloads with
    values and weights in [0,100] and the same weights, the one with the
    higher values, sub-indicator by sub-indicator, has the score of
    [calculateClientRiskScore] that is at least as high, and a risk level
    that is at least as high. *)
Theorem raising_values (cats cats' : list Category.t) (u : bool) :
  View.valid cats = true ->
  View.valid cats' = true ->
  Frame.raised u cats cats' ->
  exists r r' : Q,
    DataMapper.calculateClientRiskScore cats u = JS.Num r
    /\ DataMapper.calculateClientRiskScore cats' u = JS.Num r'
    /\ r <= r'
    /\ (Frame.levelRank (DataMapper.getRiskLevel (JS.Num r))
        <= Frame.levelRank (DataMapper.getRiskLevel (JS.Num r')))%nat.
Proof.
  intros Hv Hv' Hr.
  exists (Exact.riskScore cats u), (Exact.riskScore cats' u).
  split; [apply calculateClientRiskScore_exact|].
  split; [apply calculateClientRiskScore_exact|].
  assert (Hle : Exact.riskScore cats u <= Exact.riskScore cats' u);
    [|split; [exact Hle|apply getRiskLevel_monotone, Hle]].
  assert (R : Forall2 (fun p q => fst p <= fst q /\ snd p == snd q /\ 0 <= snd p)
                (Exact.scored_of u cats) (Exact.scored_of u cats')).
  { assert (Hc : forall x, In x cats -> View.valid_category x = true).
    { unfold View.valid in Hv. rewrite forallb_forall in Hv. exact Hv. }
    assert (Hc' : forall x, In x cats' -> View.valid_category x = true).
    { unfold View.valid in Hv'. rewrite forallb_forall in Hv'. exact Hv'. }
    clear Hv Hv'. unfold Frame.raised in Hr. unfold Exact.scored_of.
    induction Hr as [|c c' cats cats' [Hw Hix] _ IH]; cbn [map]; constructor.
    - cbn [fst snd].
      assert (Vc : View.valid_category c = true) by (apply Hc; now left).
      assert (Vc' : View.valid_category c' = true) by (apply Hc'; now left).
      split; [|split].
      + destruct (valid_categoryScoreOf u c Vc) as [E _].
        destruct (valid_categoryScoreOf u c' Vc') as [E' _].
        rewrite E, E'. apply raised_category_score.
        pose proof (valid_pairs u c Vc) as Hp. unfold View.pairs_of in *.
        clear -Hix Hp. induction Hix as [|i i' l l' [Hw Hv] _ IH];
          cbn [map]; constructor.
        * cbn [fst snd]. inversion Hp as [|? ? [_ Hpos] _]; subst.
          cbn [snd] in Hpos. rewrite Hw. split; [exact Hv|].
          split; [reflexivity|]. rewrite <- Hw. lra.
        * apply IH. now inversion Hp.
      + now rewrite Hw.
      + apply valid_category_weight, Vc.
    - apply IH; intros x Hx; [apply Hc|apply Hc']; now right. }
  destruct (raised_sums _ _ R) as [S1 S2].
  destruct (fold_categoryStep u cats 0 0) as [F1 F2].
  destruct (fold_categoryStep u cats' 0 0) as [G1 G2].
  unfold Exact.riskScore, Exact.totals.
  set (acc := fold_left (Exact.categoryStep u) cats (0, 0)) in *.
  set (acc' := fold_left (Exact.categoryStep u) cats' (0, 0)) in *.
  rewrite Qplus_0_l in F1, F2, G1, G2.
  destruct (Qlt_le_dec 0 (snd acc)) as [Hp | Hp];
    destruct (Qlt_le_dec 0 (snd acc')) as [Hp' | Hp']; try lra.
  rewrite F1, F2, G1, G2, <- S2. unfold Qdiv.
  apply Qmult_le_compat_r; [exact S1|].
  apply Qlt_le_weak, Qinv_lt_0_compat. lra.
Qed.

Lemma raising_values_witness :
  exists r r' : Q,
    DataMapper.calculateClientRiskScore CATEGORIES false = JS.Num r
    /\ DataMapper.calculateClientRiskScore (View.set_values 100 CATEGORIES) false
       = JS.Num r'
    /\ r <= r'
    /\ (Frame.levelRank (DataMapper.getRiskLevel (JS.Num r))
        <= Frame.levelRank (DataMapper.getRiskLevel (JS.Num r')))%nat.
Proof.
  apply raising_values.
  - vm_compute. reflexivity.
  - vm_compute. reflexivity.
  - repeat constructor; vm_compute; discriminate.
Defined.

End Sensitivity.


(** ** First match wins *)

Section Shadowing.
Local Open Scope string_scope.

Lemma find_app_some {A : Type} (p : A -> bool) (l l' : list A) (x : A) :
  List.find p l = Some x -> List.find p (l ++ l') = Some x.
Proof.
  induction l as [|y l IH]; cbn; [discriminate|].
  destruct (p y); [trivial|exact IH].
Qed.

Lemma has_category_found (cats : list Category.t) (c : string) :
  View.has_category cats c = true ->
  exists cat, DataMapper.findCategory cats c = Some cat.
Proof.
  unfold View.has_category. destruct (DataMapper.findCategory cats c);
    [eauto|discriminate].
Qed.

(** X13: categories that follow a payload with the five categories are
    never read: whatever is appended, duplicates of the five included,
    [categoriesToMetrics] returns what it returns for the payload. *)
Theorem appended_categories_ignored (cats extra : list Category.t) (u : bool) :
  View.missing_categories cats = [] ->
  DataMapper.categoriesToMetrics (cats ++ extra) u
  = DataMapper.categoriesToMetrics cats u.
Proof.
  unfold View.missing_categories. cbn [View.SCHEMA map fst List.filter].
  intros H.
  assert (H1 : View.has_category cats "valuation" = true
               /\ View.has_category cats "sentiment" = true
               /\ View.has_category cats "positioning" = true
               /\ View.has_category cats "macro" = true
               /\ View.has_category cats "fundamentals" = true).
  { destruct (View.has_category cats "valuation"),
             (View.has_category cats "sentiment"),
             (View.has_category cats "positioning"),
             (View.has_category cats "macro"),
             (View.has_category cats "fundamentals");
      cbn in H; try discriminate; repeat split. }
  destruct H1 as (A1 & A2 & A3 & A4 & A5).
  apply has_category_found in A1, A2, A3, A4, A5.
  destruct A1 as [c1 E1], A2 as [c2 E2], A3 as [c3 E3], A4 as [c4 E4],
           A5 as [c5 E5].
  unfold DataMapper.categoriesToMetrics.
  unfold DataMapper.findCategory in *.
  rewrite (find_app_some _ _ extra _ E1), (find_app_some _ _ extra _ E2),
    (find_app_some _ _ extra _ E3), (find_app_some _ _ extra _ E4),
    (find_app_some _ _ extra _ E5), E1, E2, E3, E4, E5.
  reflexivity.
Qed.

Lemma appended_categories_ignored_witness :
  DataMapper.categoriesToMetrics
    (CATEGORIES ++ View.set_values 0 CATEGORIES) true
  = DataMapper.categoriesToMetrics CATEGORIES true.
Proof. apply appended_categories_ignored. reflexivity. Defined.

End Shadowing.

(** ** The sets of expanded cards *)

Section Toggles.

(** X14: toggling an identifier twice gives the set back; one toggle
    changes the membership of that identifier and of no other. *)
Theorem toggle_twice (expanded : gset string) (categoryId : string) :
  CategoryControls.toggleCategory
    (CategoryControls.toggleCategory expanded categoryId) categoryId
  = expanded
  /\ (categoryId ∈ CategoryControls.toggleCategory expanded categoryId
      <-> categoryId ∉ expanded)
  /\ (forall other : string,
        other <> categoryId ->
        (other ∈ CategoryControls.toggleCategory expanded categoryId
         <-> other ∈ expanded)).
Proof.
  unfold CategoryControls.toggleCategory.
  split; [|split].
  - destruct (decide (categoryId ∈ expanded)) as [Hin | Hout].
    + destruct (decide (categoryId ∈ expanded ∖ {[categoryId]})) as [H | H];
        [set_solver|].
      apply set_eq. intros x. destruct (decide (x = categoryId)); set_solver.
    + destruct (decide (categoryId ∈ expanded ∪ {[categoryId]})) as [H | H];
        [|set_solver].
      apply set_eq. intros x. destruct (decide (x = categoryId)); set_solver.
  - destruct (decide (categoryId ∈ expanded)); set_solver.
  - intros other Hne. destruct (decide (categoryId ∈ expanded)); set_solver.
Qed.

Lemma toggle_twice_witness :
  "valuation" ∈ CategoryControls.toggleCategory {["macro"]} "sentiment"
  <-> "valuation" ∈ ({["macro"]} : gset string).
Proof.
  apply (toggle_twice {["macro"]} "sentiment"). discriminate.
Defined.

End Toggles.

(** ** The parts of the audio blob *)

Section Blob.

Lemma chunkLoop_spec (fuel : nat) (byteCharacters : list ascii) (offset : nat)
  (byteArrays : list (list N)) :
  List.length byteCharacters - offset <= fuel ->
  exists parts : list (list N),
    VoiceAudio.chunkLoop fuel byteCharacters offset byteArrays
    = Some (byteArrays ++ parts)
    /\ concat parts = map N_of_ascii (skipn offset byteCharacters)
    /\ Forall (fun p => 0 < List.length p <= 512) parts
    /\ List.length byteCharacters - offset <= 512 * List.length parts
    /\ 512 * List.length parts < List.length byteCharacters - offset + 512.
Proof.
  revert offset byteArrays.
  induction fuel as [|fuel IH]; intros offset byteArrays Hfuel.
  - cbn [VoiceAudio.chunkLoop].
    destruct (offset <? List.length byteCharacters) eqn:E.
    + apply Nat.ltb_lt in E. lia.
    + apply Nat.ltb_ge in E. exists []. rewrite app_nil_r.
      rewrite skipn_all2 by exact E. cbn. repeat split; try lia. constructor.
  - cbn [VoiceAudio.chunkLoop].
    destruct (offset <? List.length byteCharacters) eqn:E.
    + apply Nat.ltb_lt in E.
      destruct (IH (offset + 512)
                  (byteArrays
                   ++ [VoiceAudio.byteArrayOf
                         (VoiceAudio.slice512 byteCharacters offset)]))
        as (parts & Ep & Hc & Hs & Hn1 & Hn2); [lia|].
      exists (VoiceAudio.byteArrayOf (VoiceAudio.slice512 byteCharacters offset)
              :: parts).
      rewrite Ep, <- app_assoc. split; [reflexivity|].
      unfold VoiceAudio.byteArrayOf, VoiceAudio.slice512 in *.
      split; [|split; [|split]].
      * cbn [concat]. rewrite Hc, <- map_app. f_equal.
        rewrite Nat.add_comm, <- skipn_skipn. apply firstn_skipn.
      * constructor; [|exact Hs].
        rewrite length_map, length_firstn, length_skipn. lia.
      * cbn [List.length]. lia.
      * cbn [List.length]. lia.
    + apply Nat.ltb_ge in E. exists []. rewrite app_nil_r.
      rewrite skipn_all2 by exact E. cbn. repeat split; try lia. constructor.
Qed.

(** X15: [base64ToBlob] always ends, and the parts of its blob are the
    decoded characters cut into pieces of 512: joined they are the
    character codes in order, no part is empty or longer than 512, and
    there are as many parts as the length divided by 512, rounded up. *)
Theorem blobParts_complete (byteCharacters : list ascii) :
  exists parts : list (list N),
    VoiceAudio.blobParts byteCharacters = Some parts
    /\ concat parts = map N_of_ascii byteCharacters
    /\ Forall (fun p => 0 < List.length p <= 512) parts
    /\ List.length byteCharacters <= 512 * List.length parts
    /\ 512 * List.length parts < List.length byteCharacters + 512.
Proof.
  destruct (chunkLoop_spec (List.length byteCharacters) byteCharacters 0 [])
    as (parts & E & Hc & Hs & H1 & H2); [lia|].
  exists parts. unfold VoiceAudio.blobParts. rewrite E.
  rewrite Nat.sub_0_r in H1, H2. cbn [skipn] in Hc. auto.
Qed.

End Blob.


(** ** The labels of the bubble *)

Section Labels.
Local Open Scope Q_scope.

Lemma ge_Num (x y : Q) : JSOps.ge (JS.Num x) (JS.Num y) = true <-> y <= x.
Proof.
  unfold JSOps.ge, JS.lt. destruct (Qlt_le_dec x y); cbn; split; intros;
    try easy; lra.
Qed.

(** X16: the burst risk and the time estimate of the bubble never fall
    when the score rises, and they agree with each other and with the risk
    level: a score is CRITICAL exactly when its estimate is "1-2 months" or
    "< 14 days", a LOW risk level has the burst risk LOW and the estimate
    "3+ years", and a burst risk of HIGH or CRITICAL has the risk level
    HIGH and the indicator "High Risk".  A score of NaN has the burst risk
    LOW and the estimate "3+ years", and the risk level HIGH. *)
Theorem bubble_labels (s s' : Q) :
  (s <= s' ->
   (BubbleVisualization.burstRank (BubbleVisualization.getBurstRisk (JS.Num s))
    <= BubbleVisualization.burstRank
         (BubbleVisualization.getBurstRisk (JS.Num s')))%nat
   /\ (BubbleVisualization.estimateRank
         (BubbleVisualization.getTimeEstimate (JS.Num s))
       <= BubbleVisualization.estimateRank
            (BubbleVisualization.getTimeEstimate (JS.Num s')))%nat)
  /\ (BubbleVisualization.getBurstRisk (JS.Num s) = BubbleVisualization.CRITICAL
      <-> (5 <= BubbleVisualization.estimateRank
                  (BubbleVisualization.getTimeEstimate (JS.Num s)))%nat)
  /\ (DataMapper.getRiskLevel (JS.Num s) = LOW ->
      BubbleVisualization.getBurstRisk (JS.Num s) = BubbleVisualization.LOW_RISK
      /\ BubbleVisualization.getTimeEstimate (JS.Num s) = "3+ years"%string)
  /\ ((2 <= BubbleVisualization.burstRank
              (BubbleVisualization.getBurstRisk (JS.Num s)))%nat
      <-> CategoryControls.getValueIndicator (JS.Num s) = "High Risk"%string)
  /\ ((2 <= BubbleVisualization.burstRank
              (BubbleVisualization.getBurstRisk (JS.Num s)))%nat ->
      DataMapper.getRiskLevel (JS.Num s) = HIGH)
  /\ (BubbleVisualization.getBurstRisk JS.NaN = BubbleVisualization.LOW_RISK
      /\ BubbleVisualization.getTimeEstimate JS.NaN = "3+ years"%string
      /\ DataMapper.getRiskLevel JS.NaN = HIGH).
Proof.
  split; [|split; [|split; [|split; [|split]]]].
  - intros H. split.
    + unfold BubbleVisualization.getBurstRisk, JSOps.ge, JS.lt.
      destruct (Qlt_le_dec s 85), (Qlt_le_dec s 70), (Qlt_le_dec s 50),
               (Qlt_le_dec s' 85), (Qlt_le_dec s' 70), (Qlt_le_dec s' 50);
        cbn; try lia; lra.
    + unfold BubbleVisualization.getTimeEstimate, JSOps.ge, JS.lt.
      destruct (Qlt_le_dec s 90), (Qlt_le_dec s 85), (Qlt_le_dec s 75),
               (Qlt_le_dec s 65), (Qlt_le_dec s 50), (Qlt_le_dec s 35);
        try lra;
        destruct (Qlt_le_dec s' 90), (Qlt_le_dec s' 85), (Qlt_le_dec s' 75),
                 (Qlt_le_dec s' 65), (Qlt_le_dec s' 50), (Qlt_le_dec s' 35);
        cbn; try lia; lra.
  - unfold BubbleVisualization.getBurstRisk, BubbleVisualization.getTimeEstimate,
      JSOps.ge, JS.lt.
    destruct (Qlt_le_dec s 90), (Qlt_le_dec s 85), (Qlt_le_dec s 75),
             (Qlt_le_dec s 70), (Qlt_le_dec s 65), (Qlt_le_dec s 50),
             (Qlt_le_dec s 35); cbn; try lra;
      split; intros; try discriminate; try reflexivity; lia.
  - unfold DataMapper.getRiskLevel, BubbleVisualization.getBurstRisk,
      BubbleVisualization.getTimeEstimate, JSOps.ge, JS.lt.
    destruct (Qlt_le_dec s 33), (Qlt_le_dec s 67); try discriminate;
      intros _;
      destruct (Qlt_le_dec s 90), (Qlt_le_dec s 85), (Qlt_le_dec s 75),
               (Qlt_le_dec s 70), (Qlt_le_dec s 65), (Qlt_le_dec s 50),
               (Qlt_le_dec s 35); cbn; try lra; split; reflexivity.
  - unfold BubbleVisualization.getBurstRisk, CategoryControls.getValueIndicator,
      JSOps.ge, JS.lt.
    destruct (Qlt_le_dec s 85), (Qlt_le_dec s 70), (Qlt_le_dec s 50);
      cbn; try lra; split; intros; try discriminate; try reflexivity; lia.
  - unfold BubbleVisualization.getBurstRisk, DataMapper.getRiskLevel,
      JSOps.ge, JS.lt.
    destruct (Qlt_le_dec s 85), (Qlt_le_dec s 70), (Qlt_le_dec s 50),
             (Qlt_le_dec s 33), (Qlt_le_dec s 67);
      cbn; try lra; intros; try reflexivity; lia.
  - repeat split.
Qed.

Lemma bubble_labels_witness :
  (BubbleVisualization.burstRank (BubbleVisualization.getBurstRisk (JS.Num 60))
   <= BubbleVisualization.burstRank
        (BubbleVisualization.getBurstRisk (JS.Num 86)))%nat
  /\ BubbleVisualization.getBurstRisk (JS.Num 20) = BubbleVisualization.LOW_RISK
  /\ DataMapper.getRiskLevel (JS.Num 86) = HIGH.
Proof.
  destruct (bubble_labels 60 86) as (M & _).
  destruct (bubble_labels 20 20) as (_ & _ & L & _).
  destruct (bubble_labels 86 86) as (_ & _ & _ & _ & Hh & _).
  split; [apply M; vm_compute; discriminate|].
  split; [apply L; reflexivity|].
  apply Hh. vm_compute. lia.
Defined.

End Labels.


(** ** The order of the payload *)

Section Order.
Local Open Scope string_scope.

Lemma find_unique_perm {A : Type} (key : A -> string) (i : string)
  (l l' : list A) :
  List.NoDup (map key l) -> Permutation l l' ->
  List.find (fun x => String.eqb (key x) i) l
  = List.find (fun x => String.eqb (key x) i) l'.
Proof.
  intros Hnd Hp. induction Hp as [|x l l' Hp IH|x y l|l l' l'' Hp1 IH1 Hp2 IH2].
  - reflexivity.
  - cbn. inversion Hnd; subst. rewrite IH by assumption. reflexivity.
  - cbn. destruct (String.eqb (key x) i) eqn:Ex;
      destruct (String.eqb (key y) i) eqn:Ey; try reflexivity.
    apply String.eqb_eq in Ex, Ey. exfalso.
    cbn in Hnd. inversion Hnd as [|? ? Hin _]; subst.
    apply Hin. left. congruence.
  - rewrite IH1 by assumption. apply IH2.
    eapply Permutation_NoDup; [|exact Hnd]. apply Permutation_map, Hp1.
Qed.

(** The metrics are determined by what is read for each sub-indicator of
    each category. *)
Lemma categoriesToMetrics_by_values (u : bool) (cats cats' : list Category.t) :
  (forall c : string,
      View.option_rel
        (fun x y => Category.id x = Category.id y
                    /\ forall i, DataMapper.valueOf u y i = DataMapper.valueOf u x i)
        (DataMapper.findCategory cats c) (DataMapper.findCategory cats' c)) ->
  DataMapper.categoriesToMetrics cats' u = DataMapper.categoriesToMetrics cats u.
Proof.
  intros H. unfold DataMapper.categoriesToMetrics.
  pose proof (H "valuation") as R1. pose proof (H "sentiment") as R2.
  pose proof (H "positioning") as R3. pose proof (H "macro") as R4.
  pose proof (H "fundamentals") as R5.
  destruct (DataMapper.findCategory cats "valuation") as [c1|],
           (DataMapper.findCategory cats' "valuation") as [d1|];
    cbn in R1; try easy;
  destruct (DataMapper.findCategory cats "sentiment") as [c2|],
           (DataMapper.findCategory cats' "sentiment") as [d2|];
    cbn in R2; try easy;
  destruct (DataMapper.findCategory cats "positioning") as [c3|],
           (DataMapper.findCategory cats' "positioning") as [d3|];
    cbn in R3; try easy;
  destruct (DataMapper.findCategory cats "macro") as [c4|],
           (DataMapper.findCategory cats' "macro") as [d4|];
    cbn in R4; try easy;
  destruct (DataMapper.findCategory cats "fundamentals") as [c5|],
           (DataMapper.findCategory cats' "fundamentals") as [d5|];
    cbn in R5; try easy.
  cbv zeta.
  destruct R1 as [_ R1], R2 as [_ R2], R3 as [_ R3], R4 as [_ R4],
           R5 as [_ R5].
  repeat (rewrite ?R1, ?R2, ?R3, ?R4, ?R5;
          match goal with
          | |- bind ?r _ = bind ?r _ =>
              destruct r; cbn [bind]; [|reflexivity]
          end).
  reflexivity.
Qed.

(** X17: when the identifiers of the categories and of the sub-indicators
    of each category are distinct, the order of the payload does not
    matter: [categoriesToMetrics] returns the same metrics, or the same
    error, for the categories and the sub-indicators in any other order. *)
Theorem order_does_not_matter (cats cats' : list Category.t) (u : bool) :
  Frame.distinct cats ->
  Frame.reordered cats cats' ->
  DataMapper.categoriesToMetrics cats' u = DataMapper.categoriesToMetrics cats u.
Proof.
  intros [Hnd Hix] (mid & Hp & Hf).
  apply categoriesToMetrics_by_values. intros c.
  unfold DataMapper.findCategory.
  rewrite (find_unique_perm Category.id c cats mid Hnd Hp).
  assert (Hmid : Forall (fun x => List.NoDup (map Index.id (Category.indexes x)))
                   mid).
  { rewrite List.Forall_forall in *. intros x Hx. apply Hix.
    eapply Permutation_in; [symmetry; exact Hp|exact Hx]. }
  clear -Hf Hmid.
  induction Hf as [|x y mid cats' [Eid Hpi] _ IH]; cbn; [exact I|].
  inversion Hmid as [|? ? Hx Hmid']; subst.
  rewrite <- Eid. destruct (String.eqb (Category.id x) c).
  - cbn. split; [exact Eid|]. intros i.
    unfold DataMapper.valueOf, DataMapper.findIndex, DataMapper.lookupIndex.
    rewrite <- Eid.
    rewrite (find_unique_perm Index.id i _ _ Hx Hpi). reflexivity.
  - apply IH, Hmid'.
Qed.

Lemma order_does_not_matter_witness :
  DataMapper.categoriesToMetrics (Frame.reversed CATEGORIES) true
  = DataMapper.categoriesToMetrics CATEGORIES true.
Proof.
  apply order_does_not_matter.
  - split.
    + repeat constructor; cbn; intuition discriminate.
    + repeat constructor; cbn; intuition discriminate.
  - exists (rev CATEGORIES). split; [apply Permutation_rev|].
    repeat constructor; cbn [Category.indexes]; apply Permutation_rev.
Defined.

End Order.


(** ** The two market consensus figures *)

Section Consensus.
Local Open Scope Q_scope.

Lemma uniform_pair_sums (w : Q) (l : list (Q * Q)) :
  Forall (fun p => snd p == w) l ->
  Spec.sum_weighted l == w * Mean.total fst l
  /\ Spec.sum_weights l == Mean.count l * w.
Proof.
  induction 1 as [|[v x] l Hx _ [IH1 IH2]].
  - unfold Mean.count. cbn. split; ring.
  - rewrite count_cons. cbn [Spec.sum_weighted Spec.sum_weights Mean.total fst].
    cbn [snd] in Hx. rewrite IH1, IH2, Hx. split; ring.
Qed.

Lemma total_means_reset (cats : list Category.t) :
  Mean.total fst (Mean.userMeans (map UserEdits.resetCategory cats))
  == Mean.total fst (Mean.marketMeans cats).
Proof.
  induction cats as [|c cats IH]; [reflexivity|].
  unfold Mean.userMeans, Mean.marketMeans in *. cbn [map Mean.total fst].
  rewrite IH.
  assert (E : Mean.meanOf UserAnalysis.indexValue
                (Category.indexes (UserEdits.resetCategory c))
              == Mean.meanOf Index.value (Category.indexes c)).
  { unfold Mean.meanOf, Mean.count. cbn [UserEdits.resetCategory Category.indexes].
    rewrite length_map.
    assert (T : Mean.total UserAnalysis.indexValue
                  (map (fun idx => Index.mk (Index.id idx) (Index.value idx)
                                     (Index.marketWeight idx) None)
                     (Category.indexes c))
                == Mean.total Index.value (Category.indexes c)).
    { induction (Category.indexes c) as [|i l IHl]; [reflexivity|].
      cbn [map Mean.total]. rewrite IHl. reflexivity. }
    rewrite T. reflexivity. }
  rewrite E. reflexivity.
Qed.

Lemma valid_reset (cats : list Category.t) :
  View.valid cats = true -> View.valid (map UserEdits.resetCategory cats) = true.
Proof.
  unfold View.valid. rewrite !forallb_forall. intros H c Hc.
  apply in_map_iff in Hc. destruct Hc as [x [<- Hx]]. specialize (H x Hx).
  unfold View.valid_category in *. rewrite !andb_true_iff in *.
  destruct H as [[Hu Hm] Hi]. cbn [UserEdits.resetCategory Category.userWeight
                                   Category.marketWeight Category.indexes].
  repeat split; try assumption.
  rewrite forallb_forall in *. intros i Hin.
  apply in_map_iff in Hin. destruct Hin as [j [<- Hj]]. specialize (Hi j Hj).
  unfold View.valid_index in *. rewrite !andb_true_iff in *.
  cbn [Index.value Index.marketWeight Index.userValue]. tauto.
Qed.



End Consensus.


(** ** The trend chart *)

Section Trend.
Local Open Scope Q_scope.

Lemma projectedScore_exact (cs : Q) (i : nat) :
  BubbleTrendChart.projectedScore (JS.Num cs) i
  = JS.Num (Projection.projectedQ cs (inject_Z (Z.of_nat i))).
Proof.
  unfold BubbleTrendChart.projectedScore, Projection.projectedQ,
    JSOps.ge, JS.lt, BubbleTrendChart.num.
  destruct (Qlt_le_dec cs 85); cbn [negb];
    [destruct (Qlt_le_dec cs 70); cbn [negb];
     [destruct (Qlt_le_dec cs 50); cbn [negb]|]|].
  - reflexivity.
  - reflexivity.
  - reflexivity.
  - unfold BubbleTrendChart.sub. cbn [BubbleTrendChart.neg JS.add JS.mul].
    rewrite div_Num by lra. reflexivity.
Qed.

Lemma shownScore_exact (p : Q) :
  BubbleTrendChart.shownScore (JS.Num p) = JS.Num (Projection.shownQ p).
Proof.
  unfold BubbleTrendChart.shownScore, Projection.shownQ.
  cbn [JS.mul BubbleTrendChart.round]. rewrite div_Num by lra. reflexivity.
Qed.

Lemma shownQ_range (p : Q) :
  0 <= Projection.shownQ p /\ Projection.shownQ p <= 100.
Proof.
  unfold Projection.shownQ. split; [apply Q.le_max_l|].
  apply Q.max_lub; [lra|apply Q.le_min_l].
Qed.

(** Rounding to one decimal loses less than 0.05. *)
Lemma rounded_above (p : Q) :
  p - 0.05 < inject_Z (Qfloor (p * 10 + (1 # 2))) / 10.
Proof.
  pose proof (Qlt_floor (p * 10 + (1 # 2))) as H.
  rewrite inject_Z_plus in H. change (inject_Z 1) with 1 in H.
  apply Qlt_shift_div_l; lra.
Qed.

Lemma rounded_below (p : Q) :
  inject_Z (Qfloor (p * 10 + (1 # 2))) / 10 <= p + 0.05.
Proof.
  pose proof (Qfloor_le (p * 10 + (1 # 2))) as H.
  apply Qle_shift_div_r; lra.
Qed.

Lemma shownQ_above (p b : Q) :
  b <= 100 -> b <= p - 0.05 -> b <= Projection.shownQ p.
Proof.
  intros Hb Hp. unfold Projection.shownQ.
  pose proof (rounded_above p) as Hr.
  apply Qle_trans with (2 := Q.le_max_r _ _). apply Q.min_glb; lra.
Qed.

Lemma shownQ_negative (p : Q) : p <= - 0.05 -> Projection.shownQ p == 0.
Proof.
  intros Hp. unfold Projection.shownQ.
  pose proof (rounded_below p) as Hr.
  apply Q.max_l. apply Qle_trans with (1 := Q.le_min_r _ _). lra.
Qed.

(** Below 70 no month of the projection falls under 0.7 times the score. *)
Lemma no_burst (cs n : Q) :
  0 <= cs -> cs < 70 -> 1 <= n -> n <= 24 ->
  cs * 0.7 <= Projection.shownQ (Projection.projectedQ cs n).
Proof.
  intros H0 H70 H1 H24. apply shownQ_above; [lra|].
  unfold Projection.projectedQ.
  destruct (Qlt_le_dec cs 85); [|lra].
  destruct (Qlt_le_dec cs 70); [|lra].
  destruct (Qlt_le_dec cs 50).
  - destruct (Q.min_spec 85 (cs + n * 1.8)) as [[_ E] | [_ E]]; rewrite E; lra.
  - lra.
Qed.

Lemma findIndexFrom_none {A : Type} (p : A -> nat -> bool) (l : list A) (i : nat) :
  BubbleTrendChart.findIndexFrom p l i = (-1)%Z
  <-> forall k d, nth_error l k = Some d -> p d (i + k)%nat = false.
Proof.
  revert i. induction l as [|x l IH]; intros i; cbn [BubbleTrendChart.findIndexFrom].
  - split; [|reflexivity]. intros _ [|k] d; discriminate.
  - destruct (p x i) eqn:E.
    + split; [lia|]. intros H. specialize (H 0%nat x eq_refl).
      rewrite Nat.add_0_r in H. congruence.
    + rewrite IH. split.
      * intros H [|k] d Hk.
        -- cbn in Hk. injection Hk as <-. now rewrite Nat.add_0_r.
        -- cbn in Hk. specialize (H k d Hk).
           now replace (i + S k)%nat with (S i + k)%nat by lia.
      * intros H k d Hk. specialize (H (S k) d Hk).
        now replace (S i + k)%nat with (i + S k)%nat by lia.
Qed.

Lemma findIndexFrom_range {A : Type} (p : A -> nat -> bool) (l : list A) (i : nat) :
  BubbleTrendChart.findIndexFrom p l i = (-1)%Z
  \/ (Z.of_nat i <= BubbleTrendChart.findIndexFrom p l i
      < Z.of_nat (i + List.length l))%Z.
Proof.
  revert i. induction l as [|x l IH]; intros i; cbn [BubbleTrendChart.findIndexFrom].
  - now left.
  - destruct (p x i); [right; cbn [List.length]; lia|].
    destruct (IH (S i)) as [E | E]; [now left|right].
    cbn [List.length]. lia.
Qed.

Lemma nth_error_trend (cs : JS.number) (k : nat) (d : BubbleTrendChart.point) :
  nth_error (BubbleTrendChart.generateTrendData cs) k = Some d ->
  (k <= 12)%nat
  \/ ((13 <= k <= 36)%nat
      /\ BubbleTrendChart.score d
         = BubbleTrendChart.shownScore
             (BubbleTrendChart.projectedScore cs (k - 12))).
Proof.
  unfold BubbleTrendChart.generateTrendData. intros H.
  destruct (Nat.le_gt_cases k 12) as [Hk | Hk]; [now left|right].
  rewrite nth_error_app2 in H by (rewrite length_map, length_seq; lia).
  rewrite length_map, length_seq in H.
  rewrite nth_error_map in H.
  destruct (nth_error (seq 1 24) (k - 13)) as [j|] eqn:Ej; [|discriminate].
  cbn in H. injection H as <-.
  pose proof (nth_error_Some (seq 1 24) (k - 13)) as Hlen.
  rewrite length_seq in Hlen.
  assert (Hk' : (k - 13 < 24)%nat) by (apply Hlen; congruence).
  apply nth_error_nth with (d := 0%nat) in Ej.
  rewrite seq_nth in Ej by exact Hk'. subst j.
  split; [lia|]. replace (k - 12)%nat with (1 + (k - 13))%nat by lia. reflexivity.
Qed.

(** X19: the trend chart always has 37 points, and for a finite current
    score every score it shows is a number in [0,100].  For a current
    score in [0,100] it predicts a burst, a point after the current one
    below 0.7 times the current score, exactly when the score is at least
    70, which is also exactly when it draws a risk zone. *)
Theorem trend_chart (cs : Q) :
  List.length (BubbleTrendChart.generateTrendData (JS.Num cs)) = 37%nat
  /\ Forall (fun d => exists q, BubbleTrendChart.score d = JS.Num q
                                /\ 0 <= q /\ q <= 100)
       (BubbleTrendChart.generateTrendData (JS.Num cs))
  /\ (0 <= cs -> cs <= 100 ->
      (BubbleTrendChart.burstIndex (JS.Num cs) = (-1)%Z <-> cs < 70)
      /\ (BubbleTrendChart.getBurstRiskZone (JS.Num cs) = None <-> cs < 70)
      /\ (70 <= cs ->
          (12 < BubbleTrendChart.burstIndex (JS.Num cs) <= 36)%Z)).
Proof.
  split; [reflexivity|]. split.
  - unfold BubbleTrendChart.generateTrendData. apply Forall_app. split.
    + cbn [seq map]. repeat constructor; eexists;
        (split; [reflexivity|split; vm_compute; discriminate]).
    + apply List.Forall_forall. intros d Hd. apply in_map_iff in Hd.
      destruct Hd as [i [<- _]]. cbn [BubbleTrendChart.score].
      rewrite projectedScore_exact, shownScore_exact.
      eexists. split; [reflexivity|]. apply shownQ_range.
  - intros H0 H100.
    assert (Hzone : BubbleTrendChart.getBurstRiskZone (JS.Num cs) = None
                    <-> cs < 70).
    { unfold BubbleTrendChart.getBurstRiskZone, JSOps.ge, JS.lt.
      destruct (Qlt_le_dec cs 85), (Qlt_le_dec cs 70); cbn;
        split; intros; try discriminate; try reflexivity; lra. }
    assert (Hnone : cs < 70 -> BubbleTrendChart.burstIndex (JS.Num cs) = (-1)%Z).
    { intros H70. unfold BubbleTrendChart.burstIndex.
      apply findIndexFrom_none. intros k d Hk. cbn [Nat.add].
      destruct (nth_error_trend _ _ _ Hk) as [Hle | [Hr Es]].
      - apply Nat.ltb_ge in Hle. now rewrite Hle.
      - rewrite Es, projectedScore_exact, shownScore_exact.
        cbn [JS.mul]. apply andb_false_intro2, lt_Num_false.
        apply no_burst; try assumption.
        + change 1 with (inject_Z 1). rewrite <- Zle_Qle. lia.
        + change 24 with (inject_Z 24). rewrite <- Zle_Qle. lia. }
    assert (Hsome : 70 <= cs -> BubbleTrendChart.burstIndex (JS.Num cs) <> (-1)%Z).
    { intros H70 E. unfold BubbleTrendChart.burstIndex in E.
      rewrite findIndexFrom_none in E.
      destruct (Qlt_le_dec cs 85) as [H85 | H85].
      - specialize (E 36%nat _ eq_refl). cbn [Nat.add Nat.ltb Nat.leb andb] in E.
        cbn [BubbleTrendChart.score] in E.
        rewrite projectedScore_exact, shownScore_exact in E. cbn [JS.mul] in E.
        apply lt_Num_false in E.
        rewrite shownQ_negative in E; [lra|].
        unfold Projection.projectedQ.
        destruct (Qlt_le_dec cs 85); [|lra].
        destruct (Qlt_le_dec cs 70); [lra|].
        change (inject_Z (Z.of_nat 24)) with 24.
        rewrite (Q.min_l 10 (24 * 1.2)) by (vm_compute; discriminate).
        rewrite (Q.max_r 0 (24 + - 8)) by (vm_compute; discriminate).
        lra.
      - specialize (E 22%nat _ eq_refl). cbn [Nat.add Nat.ltb Nat.leb andb] in E.
        cbn [BubbleTrendChart.score] in E.
        rewrite projectedScore_exact, shownScore_exact in E. cbn [JS.mul] in E.
        apply lt_Num_false in E.
        assert (P : Projection.projectedQ cs (inject_Z (Z.of_nat 10)) == 30).
        { unfold Projection.projectedQ.
          destruct (Qlt_le_dec cs 85); [lra|].
          change (inject_Z (Z.of_nat 10)) with 10.
          apply Q.max_l. field_simplify. lra. }
        assert (S : Projection.shownQ (Projection.projectedQ cs (inject_Z (Z.of_nat 10)))
                    == 30).
        { unfold Projection.shownQ. rewrite P. vm_compute. reflexivity. }
        rewrite S in E. lra. }
    split; [|split; [exact Hzone|]].
    + split; [|exact Hnone]. intros E.
      destruct (Qlt_le_dec cs 70) as [H | H]; [exact H|].
      exfalso. exact (Hsome H E).
    + intros H70. specialize (Hsome H70).
      unfold BubbleTrendChart.burstIndex in *.
      set (p := fun d i => _) in *.
      destruct (findIndexFrom_range p
                  (BubbleTrendChart.generateTrendData (JS.Num cs)) 0)
        as [E | [R1 R2]]; [contradiction|].
      change (List.length (BubbleTrendChart.generateTrendData (JS.Num cs)))
        with 37%nat in R2.
      split; [|lia].
      (* the first thirteen points are never the burst point *)
      destruct (Z.le_gt_cases
                  (BubbleTrendChart.findIndexFrom p
                     (BubbleTrendChart.generateTrendData (JS.Num cs)) 0) 12)
        as [Hle | Hgt]; [|lia].
      exfalso. clear Hsome.
      unfold BubbleTrendChart.generateTrendData in *.
      cbn [seq map app BubbleTrendChart.findIndexFrom] in *.
      unfold p in *. cbn [Nat.ltb Nat.leb andb] in *. 
      repeat match goal with
             | H : context [if ?b then _ else _] |- _ => destruct b
             end; lia.
Qed.

Lemma trend_chart_witness :
  BubbleTrendChart.burstIndex (JS.Num 60) = (-1)%Z
  /\ (12 < BubbleTrendChart.burstIndex (JS.Num 90) <= 36)%Z.
Proof.
  destruct (trend_chart 60) as (_ & _ & H60).
  destruct (trend_chart 90) as (_ & _ & H90).
  split.
  - apply H60; vm_compute; congruence.
  - apply H90; vm_compute; congruence.
Defined.

End Trend.
